(** * atlassian-addon-helper: lifecycle endpoints, tenant store and webhook dispatch

    A shallow embedding of [src/index.ts] (class [AtlassianAddon]) and of
    [src/registration.ts] ([getUpmToken]), followed by the properties the
    specification states about them.

    Conventions of the embedding.
    - A value of TypeScript type [any] that came out of [JSON.parse] is a
      [json]; [undefined] is [None] in [option json].
    - An [async] function is a computation that leaves a trace of the effects
      it performed on its collaborators (the debug logger, Express' [next],
      the registered handlers, the response object) and either returns or
      throws; a rejected promise and a thrown exception are the same thing
      under [await].
    - Objects that are mutated in place ([_descriptorData], [_metaRouter],
      [subApp], the Keyv store) are threaded through as explicit state. *)

From Stdlib Require Import ZArith Ascii.
From stdpp Require Import base option list strings gmap pretty.

#[local] Set Warnings "-register-all".
Local Open Scope Z_scope.

(** ** JavaScript values *)

Inductive json :=
| JNull
| JBool (b : bool)
| JNum (n : Z)
| JStr (s : string)
| JArr (items : list json)
| JObj (fields : list (string * json)).

(** [any]: a parsed value or [undefined]. *)
Abbreviation any := (option json).

Definition undefined : any := None.

(** Own-property lookup in the field list of an object literal. *)
Fixpoint assoc (k : string) (fields : list (string * json)) : any :=
  match fields with
  | [] => None
  | (k', v) :: rest => if String.eqb k k' then Some v else assoc k rest
  end.

(** ToBoolean. Numbers are kept as integers: the code only ever tests them
    for truthiness. *)
Definition truthy (v : any) : bool :=
  match v with
  | None => false
  | Some JNull => false
  | Some (JBool b) => b
  | Some (JNum n) => negb (n =? 0)
  | Some (JStr s) => negb (String.eqb s "")
  | Some (JArr _) => true
  | Some (JObj _) => true
  end.

(** [v.k] for a data key [k] (not a name inherited from a prototype) on a
    truthy [v]: objects answer with their own property, every other value
    with [undefined]. *)
Definition prop (v : any) (k : string) : any :=
  match v with
  | Some (JObj fields) => assoc k fields
  | _ => None
  end.

(** [s === v] with [s] a string. *)
Definition strict_eq (s : string) (v : any) : bool :=
  match v with
  | Some (JStr s') => String.eqb s s'
  | _ => false
  end.

(** ** Thrown values and completions *)

(** What a [catch (e)] clause may receive.  A handler supplied by the host may
    reject with anything; the language itself raises [TypeError]s. *)
Inductive thrown :=
| ThrownUndefined
| ThrownNull
| ThrownString (s : string)
| ThrownError (name message : string).

Definition TypeError (message : string) : thrown := ThrownError "TypeError" message.

Inductive completion (A : Type) :=
| Returned (a : A)
| Thrown (e : thrown).
Arguments Returned {A} a.
Arguments Thrown {A} e.

(** ** Webhook types *)

Module IWebhookPayload.
(** [interface IWebhookPayload { timestamp: string, event: string,
    [index: string]: any }] *)
Record t := {
  timestamp : string;
  event : string;
  index : list (string * json)
}.

(** [payload.k]: the two declared members, then the index signature. *)
Definition get (p : t) (k : string) : any :=
  if String.eqb k "timestamp" then Some (JStr (timestamp p))
  else if String.eqb k "event" then Some (JStr (event p))
  else assoc k (index p).
End IWebhookPayload.

(** [type WebhookHandler = (payload: IWebhookPayload) => Promise<boolean>] *)
Definition WebhookHandler := IWebhookPayload.t -> completion bool.

(** [interface IDescriptorModule { key?: string, description?: string }] *)
Record IDescriptorModule := {
  module_key : option string;
  module_description : option string
}.

Module IWebhookDefinition.
(** [interface IWebhookDefinition extends IDescriptorModule] *)
Record t := {
  key : option string;
  description : option string;
  event : string;
  url : option string;
  excludeBody : option bool;
  filter : option string;
  propertyKeys : option (list string)
}.

(** [definition.url = u] *)
Definition set_url (d : t) (u : string) : t :=
  {| key := key d; description := description d; event := event d;
     url := Some u; excludeBody := excludeBody d; filter := filter d;
     propertyKeys := propertyKeys d |}.
End IWebhookDefinition.

Record WebhookConfiguration := {
  definition : IWebhookDefinition.t;
  handler : WebhookHandler
}.

(** ** Effects *)

(** The body of [res.status(code).json({ code, msg })]. *)
Record reply := { code : Z; msg : string }.

Inductive effect :=
| Log (message : string)                         (* logger(message) *)
| Next (error : string)                          (* next(new Error(error)) *)
| Call (i : nat) (payload : IWebhookPayload.t)   (* webhooks[i].handler(payload) *)
| Respond (status : Z) (body : reply).           (* res.status(status).json(body) *)

Definition async (A : Type) : Type := list effect * completion A.

Definition ret {A} (a : A) : async A := ([], Returned a).
Definition throw {A} (e : thrown) : async A := ([], Thrown e).
Definition emit (e : effect) : async unit := ([e], Returned tt).

Definition bind {A B} (m : async A) (k : A -> async B) : async B :=
  match m with
  | (t, Returned a) => let '(t', r) := k a in (t ++ t', r)
  | (t, Thrown e) => (t, Thrown e)
  end.

(** [try { m } catch (e) { h e }] *)
Definition try_catch {A} (m : async A) (h : thrown -> async A) : async A :=
  match m with
  | (t, Thrown e) => let '(t', r) := h e in (t ++ t', r)
  | (t, Returned a) => (t, Returned a)
  end.

Notation "x <- m ;; k" := (bind m (fun x => k))
  (at level 100, m at next level, right associativity).
Notation "m ;; k" := (bind m (fun _ => k))
  (at level 100, right associativity).

Definition trace {A} (m : async A) : list effect := fst m.

(** [e.toString()] *)
Definition toString (e : thrown) : async string :=
  match e with
  | ThrownUndefined =>
      throw (TypeError "Cannot read properties of undefined (reading 'toString')")
  | ThrownNull =>
      throw (TypeError "Cannot read properties of null (reading 'toString')")
  | ThrownString s => ret s
  | ThrownError name message =>
      ret (if String.eqb name "" then message
           else if String.eqb message "" then name
           else name +:+ ": " +:+ message)
  end.

(** [Array.prototype.findIndex]: the first position that satisfies [p],
    [-1] when there is none. *)
Fixpoint findIndex_from {A} (p : A -> bool) (l : list A) (i : Z) : Z :=
  match l with
  | [] => -1
  | x :: rest => if p x then i else findIndex_from p rest (i + 1)
  end.

Definition findIndex {A} (p : A -> bool) (l : list A) : Z := findIndex_from p l 0.

(** ** [AtlassianAddon.sendError] *)
Definition sendError (c : Z) (m : string) : async unit :=
  emit (Respond c {| code := c; msg := m |}).

(** ** The webhook route installed by [addWebhooks] *)

(** [req.params.event], the empty string standing for a parameter that is
    not set, and [req.body], which the route casts to [IWebhookPayload]. *)
Record WebhookRequest := {
  params_event : string;
  body : option IWebhookPayload.t
}.

Definition msg_no_event : string :=
  "Received an event from Jira but the event parameter was not set which suggests that the URL was setup incorrectly".
Definition msg_no_body : string :=
  "Received a webhook event but no pre-processing of the body has been done.  Make sure and add a body parser middleware to the route".

(** [await webhooks[index].handler(payload)] *)
Definition await_handler (webhooks : list WebhookConfiguration) (i : Z)
    (payload : IWebhookPayload.t) : async bool :=
  match webhooks !! Z.to_nat i with
  | Some wh => ([Call (Z.to_nat i) payload], handler wh payload)
  | None => throw (TypeError "Cannot read properties of undefined (reading 'handler')")
  end.

(** The predicate given to [findIndex]:
    [wh.definition.event === payload.webhookEvent]. *)
Definition event_matches (payload : IWebhookPayload.t) (wh : WebhookConfiguration) : bool :=
  strict_eq (IWebhookDefinition.event (definition wh))
    (IWebhookPayload.get payload "webhookEvent").

(** The [!event] guard: it reports through [next] and falls through. *)
Definition check_event_param (req : WebhookRequest) : async unit :=
  if String.eqb (params_event req) "" then
    emit (Log msg_no_event) ;; emit (Next msg_no_event)
  else ret tt.

(** The [catch (e)] block. *)
Definition on_exception (e : thrown) : async unit :=
  s <- toString e ;;
  emit (Log ("Unable to handle a webhook event that  was received from Jira: " +:+ s)) ;;
  sendError 500 "Exception thrown during handling of webhook event".

Definition webhook_route (webhooks : list WebhookConfiguration)
    (req : WebhookRequest) : async unit :=
  check_event_param req ;;
  try_catch
    (match body req with
     | None => emit (Log msg_no_body)
     | Some payload =>
         let i := findIndex (event_matches payload) webhooks in
         if 0 <=? i then
           await_handler webhooks i payload ;;
           sendError 200 "Event handled successfully"
         else
           emit (Log ("Webhook event handler not found for "
                      +:+ IWebhookPayload.event payload)) ;;
           sendError 404 "Event handler not found"
     end)
    on_exception.

(** The handler invocations and the responses among the effects of a run. *)
Definition calls (t : list effect) : list (nat * IWebhookPayload.t) :=
  omap (fun e => match e with Call i p => Some (i, p) | _ => None end) t.

Definition responses (t : list effect) : list (Z * reply) :=
  omap (fun e => match e with Respond c b => Some (c, b) | _ => None end) t.

(** ** The descriptor *)

(** An entry of [modules[name]]: a webhook definition pushed by [addWebhooks],
    or any other module the host listed. *)
Inductive descriptor_module :=
| WebhookModule (d : IWebhookDefinition.t)
| OtherModule (m : IDescriptorModule).

Record lifecycle_paths := { installed_path : string; uninstalled_path : string }.

Module IAtlassianDescriptor.
Record t := {
  key : string;
  name : string;
  description : string;
  vendor : option (string * string);
  authentication : string;
  baseUrl : string;
  modules : option (gmap string (list descriptor_module));
  links : option string;
  lifecycle : option lifecycle_paths;
  enableLicensing : option bool;
  (* [scopes?: string[]]: [None] when the object has no such member,
     [Some None] when it has one whose value is [undefined] *)
  scopes : option (option (list string))
}.

Definition set_baseUrl (d : t) (u : string) : t :=
  {| key := key d; name := name d; description := description d;
     vendor := vendor d; authentication := authentication d; baseUrl := u;
     modules := modules d; links := links d; lifecycle := lifecycle d;
     enableLicensing := enableLicensing d; scopes := scopes d |}.

Definition set_scopes (d : t) (s : option (option (list string))) : t :=
  {| key := key d; name := name d; description := description d;
     vendor := vendor d; authentication := authentication d;
     baseUrl := baseUrl d; modules := modules d; links := links d;
     lifecycle := lifecycle d; enableLicensing := enableLicensing d;
     scopes := s |}.

Definition set_lifecycle (d : t) (l : lifecycle_paths) : t :=
  {| key := key d; name := name d; description := description d;
     vendor := vendor d; authentication := authentication d;
     baseUrl := baseUrl d; modules := modules d; links := links d;
     lifecycle := Some l; enableLicensing := enableLicensing d;
     scopes := scopes d |}.

Definition set_modules (d : t) (m : gmap string (list descriptor_module)) : t :=
  {| key := key d; name := name d; description := description d;
     vendor := vendor d; authentication := authentication d;
     baseUrl := baseUrl d; modules := Some m; links := links d;
     lifecycle := lifecycle d; enableLicensing := enableLicensing d;
     scopes := scopes d |}.
End IAtlassianDescriptor.

(** ** Keyv *)

(** The store behind [new Keyv(uri, { namespace })]: the entries of one
    namespace, keyed by the text of the key.  The backend is taken to be
    reachable: [get] of a key without an entry is [undefined], [delete] of
    such a key is not an error. *)
Module Keyv.
Record t := {
  uri : string;
  namespace : string;
  entries : gmap string json
}.

Definition get (db : t) (k : string) : any := entries db !! k.

Definition set (db : t) (k : string) (v : json) : t :=
  {| uri := uri db; namespace := namespace db; entries := <[k := v]> (entries db) |}.

Definition delete (db : t) (k : string) : t :=
  {| uri := uri db; namespace := namespace db; entries := base.delete k (entries db) |}.
End Keyv.

(** ** Express *)

Inductive middleware := bodyParser_json | authenticationMiddleware.

Inductive meta_callback := installed_callback | uninstalled_callback | descriptor_endpoint.

(** [Router()]: the middleware it uses and its routes (method, path, callback). *)
Record Router := {
  uses : list middleware;
  routes : list (string * string * meta_callback)
}.

(** What the class puts on [subApp].  [subApp.use(path, this._metaRouter)]
    mounts the router object itself, which is the one held (and later
    extended) in the [_metaRouter] field: the layer only records where. *)
Inductive layer :=
| use_metaRouter (path : string)
| post_webhook (path : string) (stack : list middleware)
    (webhooks : list WebhookConfiguration).

Definition Application := list layer.

(** ** jira.js *)

Record Client := {
  client_host : string;
  client_username : string;
  client_apiToken : string
}.

Record IJiraConnection := {
  host : string;
  username : string;
  apiToken : string;
  client : option Client
}.

(** ** [class AtlassianAddon] *)

(** A lifecycle request, as the meta router's [bodyParser.json()] leaves it:
    [req.body] is untyped. *)
Record Request := { req_body : any }.

Module AtlassianAddon.
Record t := {
  subApp : Application;
  _descriptorData : IAtlassianDescriptor.t;
  _maxTokenAge : Z;
  _db : Keyv.t;
  _metaRouter : option Router;
  _addonPath : string;
  _jira : option IJiraConnection
}.

Definition set_subApp (this : t) (app : Application) : t :=
  {| subApp := app; _descriptorData := _descriptorData this;
     _maxTokenAge := _maxTokenAge this; _db := _db this;
     _metaRouter := _metaRouter this; _addonPath := _addonPath this;
     _jira := _jira this |}.

Definition set_descriptorData (this : t) (d : IAtlassianDescriptor.t) : t :=
  {| subApp := subApp this; _descriptorData := d;
     _maxTokenAge := _maxTokenAge this; _db := _db this;
     _metaRouter := _metaRouter this; _addonPath := _addonPath this;
     _jira := _jira this |}.

Definition set_db (this : t) (db : Keyv.t) : t :=
  {| subApp := subApp this; _descriptorData := _descriptorData this;
     _maxTokenAge := _maxTokenAge this; _db := db;
     _metaRouter := _metaRouter this; _addonPath := _addonPath this;
     _jira := _jira this |}.

Definition set_metaRouter (this : t) (r : Router) : t :=
  {| subApp := subApp this; _descriptorData := _descriptorData this;
     _maxTokenAge := _maxTokenAge this; _db := _db this;
     _metaRouter := Some r; _addonPath := _addonPath this;
     _jira := _jira this |}.

(** [this._metaRouter.use(m)], [.post(path, cb)], [.get(path, cb)]: the
    router was created just before, so the field is set. *)
Definition metaRouter_use (this : t) (m : middleware) : t :=
  match _metaRouter this with
  | Some r => set_metaRouter this {| uses := uses r ++ [m]; routes := routes r |}
  | None => this
  end.

Definition metaRouter_route (this : t) (method path : string) (cb : meta_callback) : t :=
  match _metaRouter this with
  | Some r =>
      set_metaRouter this {| uses := uses r; routes := routes r ++ [(method, path, cb)] |}
  | None => this
  end.

(** Getters. *)
Definition api (this : t) : option Client :=
  match _jira this with
  | Some j => client j
  | None => None
  end.
Definition maxTokenAge (this : t) : Z := _maxTokenAge this.
Definition app (this : t) : Application := subApp this.
Definition name (this : t) : string := IAtlassianDescriptor.name (_descriptorData this).
Definition key (this : t) : string := IAtlassianDescriptor.key (_descriptorData this).
Definition baseUrl (this : t) : string := IAtlassianDescriptor.baseUrl (_descriptorData this).
Definition description (this : t) : string :=
  IAtlassianDescriptor.description (_descriptorData this).
Definition scopes (this : t) : option (list string) :=
  match IAtlassianDescriptor.scopes (_descriptorData this) with
  | Some value => value
  | None => None
  end.

(** [get skipQshVerification(): boolean { return true; }] *)
Definition skipQshVerification (this : t) : bool := true.

Definition toJson (this : t) : IAtlassianDescriptor.t := _descriptorData this.

(** [key in data] for a data key (neither an array index or [length] nor a
    name inherited from a prototype): a [TypeError] on a primitive; on an
    object, whether it has the key; never on an array. *)
Definition has_in (k : string) (data : json) : completion bool :=
  match data with
  | JObj fields => Returned (bool_decide (is_Some (assoc k fields)))
  | JArr _ => Returned false
  | _ => Thrown (TypeError "Cannot use 'in' operator to search for a key in a primitive")
  end.

Definition getClientData (this : t) (clientKey k : string) : completion any :=
  let data := Keyv.get (_db this) clientKey in
  match data with
  | Some d =>
      if truthy data then
        match has_in k d with
        | Returned true => Returned (prop data k)
        | Returned false => Returned undefined
        | Thrown e => Thrown e
        end
      else Returned undefined
  | None => Returned undefined
  end.

Definition getSharedSecret (this : t) (clientKey : string) : completion any :=
  getClientData this clientKey "sharedSecret".

Definition msg_reinitialize : string :=
  "Trying to reinitialize lifecycle endpoints.   Skipping...".

Definition addLifecycleEndpoints (this : t) : t * list effect :=
  match _metaRouter this with
  | Some _ => (this, [Log msg_reinitialize])
  | None =>
      let this := set_metaRouter this {| uses := []; routes := [] |} in
      let this := metaRouter_use this bodyParser_json in
      let this :=
        set_subApp this (subApp this ++ [use_metaRouter (_addonPath this +:+ "/meta")]) in
      let this :=
        set_descriptorData this
          (IAtlassianDescriptor.set_lifecycle (_descriptorData this)
             {| installed_path := "/meta/installed";
                uninstalled_path := "/meta/uninstalled" |}) in
      let this := metaRouter_route this "post" "/installed" installed_callback in
      let this := metaRouter_route this "post" "/uninstalled" uninstalled_callback in
      let this := metaRouter_route this "get" "/descriptor" descriptor_endpoint in
      (this, [])
  end.

(** The constructor.  [store uri ns] is what the backend reached through
    the connection string already holds in namespace [ns].  The token age is
    an integer number of seconds. *)
Definition new (params : IAtlassianDescriptor.t) (subApp0 : Application)
    (addonPath : string) (dbConnectionString : option string)
    (maxTokenAge0 : option Z) (jiraConnection : option IJiraConnection)
    (store : string -> string -> gmap string json) : t * list effect :=
  let jira :=
    match jiraConnection with
    | Some j =>
        Some {| host := host j; username := username j; apiToken := apiToken j;
                client := Some {| client_host := host j;
                                  client_username := username j;
                                  client_apiToken := apiToken j |} |}
    | None => None
    end in
  let age :=
    match maxTokenAge0 with
    | Some n => if n =? 0 then 15 * 60 else n
    | None => 15 * 60
    end in
  (* Object.assign({}, defaults, params): a [scopes] member of [params],
     whatever its value, replaces the default *)
  let data :=
    match IAtlassianDescriptor.scopes params with
    | Some _ => params
    | None => IAtlassianDescriptor.set_scopes params (Some (Some ["read"; "write"]))
    end in
  let data :=
    IAtlassianDescriptor.set_baseUrl data
      (IAtlassianDescriptor.baseUrl data +:+ addonPath) in
  let conn :=
    match dbConnectionString with
    | Some s => if String.eqb s "" then "sqlite://addon.sqlite" else s
    | None => "sqlite://addon.sqlite"
    end in
  let ns := IAtlassianDescriptor.key data in
  addLifecycleEndpoints
    {| subApp := subApp0; _descriptorData := data; _maxTokenAge := age;
       _db := {| Keyv.uri := conn; Keyv.namespace := ns;
                 Keyv.entries := store conn ns |};
       _metaRouter := None; _addonPath := addonPath; _jira := jira |}.

Section LifecycleCallbacks.
(** Keyv turns the key it is given into text with a template literal,
    that is with the language's ToString.  The conversion is JavaScript's,
    not this repository's: it is a parameter, [None] standing for the
    [TypeError] ToString raises on a value that has no text. *)
Variable key_text : json -> option string.

Definition msg_malformed : string :=
  "Received malformed installation payload from Jira".

(** [!clientData || !clientData.clientKey], then the branch taken. *)
Definition with_clientKey (this : t) (req : Request)
    (found : json -> json -> t * async unit) : t * async unit :=
  match req_body req with
  | Some clientData =>
      if negb (truthy (Some clientData)) then (this, sendError 500 msg_malformed)
      else
        match prop (Some clientData) "clientKey" with
        | Some clientKey =>
            if negb (truthy (Some clientKey)) then (this, sendError 500 msg_malformed)
            else found clientData clientKey
        | None => (this, sendError 500 msg_malformed)
        end
  | None => (this, sendError 500 msg_malformed)
  end.

(** [this._metaRouter.post("/installed", ...)] *)
Definition installed (this : t) (req : Request) : t * async unit :=
  with_clientKey this req (fun clientData clientKey =>
    match key_text clientKey with
    | Some k =>
        (set_db this (Keyv.set (_db this) k clientData),
         sendError 200 "Installation completed successfully")
    | None => (this, throw (TypeError "Cannot convert object to primitive value"))
    end).

(** [this._metaRouter.post("/uninstalled", ...)] *)
Definition uninstalled (this : t) (req : Request) : t * async unit :=
  with_clientKey this req (fun clientData clientKey =>
    match key_text clientKey with
    | Some k =>
        (set_db this (Keyv.delete (_db this) k),
         sendError 200 "Uninstall completed successfully")
    | None => (this, throw (TypeError "Cannot convert object to primitive value"))
    end).
End LifecycleCallbacks.

(** [wh.definition.url = `${base}/${wh.definition.event}`] *)
Definition with_url (wh : WebhookConfiguration) : WebhookConfiguration :=
  {| definition :=
       IWebhookDefinition.set_url (definition wh)
         ("/webhook" +:+ "/" +:+ IWebhookDefinition.event (definition wh));
     handler := handler wh |}.

(** [addWebhooks]: the definitions get their url and join
    [modules.webhooks]; the new route closes over the batch it was given,
    whose configurations are the objects just updated. *)
Definition addWebhooks (this : t) (webhooks : list WebhookConfiguration) : t :=
  let route := _addonPath this +:+ "/webhook" +:+ "/:event" in
  let modules :=
    match IAtlassianDescriptor.modules (_descriptorData this) with
    | Some m => m
    | None => ∅
    end in
  let listed :=
    match modules !! "webhooks" with
    | Some l => l
    | None => []
    end in
  let webhooks := with_url <$> webhooks in
  let modules :=
    <["webhooks" := listed ++ ((fun wh => WebhookModule (definition wh)) <$> webhooks)]>
      modules in
  let this :=
    set_descriptorData this
      (IAtlassianDescriptor.set_modules (_descriptorData this) modules) in
  set_subApp this
    (subApp this ++ [post_webhook route [bodyParser_json; authenticationMiddleware] webhooks]).
End AtlassianAddon.

(** ** [registration.ts] *)

(** A settled promise. *)
Abbreviation promise := completion.

(** [p.then(cb)] *)
Definition then_ {A B} (p : promise A) (cb : A -> B) : promise B :=
  match p with
  | Returned a => Returned (cb a)
  | Thrown e => Thrown e
  end.

(** [await p; rest] inside an [async] function *)
Definition await {A B} (p : promise A) (rest : A -> promise B) : promise B :=
  match p with
  | Returned a => rest a
  | Thrown e => Thrown e
  end.

Record AxiosRequestConfig := {
  method : string;
  request_url : string;
  params : any;
  data : any;
  request_headers : list (string * string)
}.

Record AxiosResponse := {
  status : Z;
  statusText : string;
  headers : gmap string string
}.

Section Registration.
(** The collaborators of the module: [url-join], Node's base64 encoding of a
    [Buffer], and [axios] itself, whose promise settles with a response or
    rejects (no connection, or a status outside 2xx). *)
Variable urljoin : string -> string -> string.
Variable base64 : string -> string.
Variable axios : AxiosRequestConfig -> promise AxiosResponse.

Definition getAxiosConfig (method0 : string) (server : IJiraConnection)
    (mimeType : string) (params0 data0 : any) (path : option string)
    : AxiosRequestConfig :=
  let url := urljoin (host server) "/rest/plugins/1.0" in
  let url :=
    match path with
    | Some p => if String.eqb p "" then url else urljoin url p
    | None => url
    end in
  let authBase64 := base64 (username server +:+ ":" +:+ apiToken server) in
  {| method := method0; request_url := url; params := params0; data := data0;
     request_headers := [("Accept", mimeType);
                         ("Authorization", "Basic " +:+ authBase64)] |}.

(** The callback handed to [then] in [getUpmToken]. *)
Definition upm_token_of (res : AxiosResponse) : option string :=
  if bool_decide (is_Some (headers res !! "upm-token"))
  then headers res !! "upm-token"
  else None.

Definition getUpmToken (server : IJiraConnection) : promise (option string) :=
  let request :=
    getAxiosConfig "get" server "application/vnd.atl.plugins.installed+json"
      (Some (JObj [("os_authType", JStr "basic")])) None None in
  await (then_ (axios request) upm_token_of) (fun _ => Returned None).
End Registration.

(** ** Sample data *)

Definition jira_issue_created : string := "jira:issue_created".

Definition webhook_for (ev : string) (h : WebhookHandler) : WebhookConfiguration :=
  {| definition :=
       {| IWebhookDefinition.key := None; IWebhookDefinition.description := None;
          IWebhookDefinition.event := ev; IWebhookDefinition.url := None;
          IWebhookDefinition.excludeBody := None; IWebhookDefinition.filter := None;
          IWebhookDefinition.propertyKeys := None |};
     handler := h |}.

(** [{ timestamp: "1700000000000", event: "jira:issue_created" }]: the
    payload shape [IWebhookPayload] documents, and nothing more. *)
Definition documented_payload : IWebhookPayload.t :=
  {| IWebhookPayload.timestamp := "1700000000000";
     IWebhookPayload.event := jira_issue_created;
     IWebhookPayload.index := [] |}.

(** The same with the member Jira sends, [webhookEvent]. *)
Definition jira_payload : IWebhookPayload.t :=
  {| IWebhookPayload.timestamp := "1700000000000";
     IWebhookPayload.event := jira_issue_created;
     IWebhookPayload.index := [("webhookEvent", JStr jira_issue_created)] |}.

Definition post_webhook_request (p : IWebhookPayload.t) : WebhookRequest :=
  {| params_event := jira_issue_created; body := Some p |}.

Definition succeeds : WebhookHandler := fun _ => Returned true.
Definition declines : WebhookHandler := fun _ => Returned false.
(** [async () => { throw undefined }], or [() => Promise.reject()]. *)
Definition rejects_with_undefined : WebhookHandler := fun _ => Thrown ThrownUndefined.

Definition sample_descriptor : IAtlassianDescriptor.t :=
  {| IAtlassianDescriptor.key := "sample-addon";
     IAtlassianDescriptor.name := "Sample";
     IAtlassianDescriptor.description := "A sample add-on";
     IAtlassianDescriptor.vendor := None;
     IAtlassianDescriptor.authentication := "jwt";
     IAtlassianDescriptor.baseUrl := "https://example.com";
     IAtlassianDescriptor.modules := None;
     IAtlassianDescriptor.links := None;
     IAtlassianDescriptor.lifecycle := None;
     IAtlassianDescriptor.enableLicensing := None;
     IAtlassianDescriptor.scopes := None |}.

(** A backend that holds nothing yet. *)
Definition empty_backend : string -> string -> gmap string json := fun _ _ => ∅.

(** [new AtlassianAddon(sample_descriptor, app, "/jira/addon")] on a fresh
    Express application. *)
Definition sample_addon : AtlassianAddon.t :=
  fst (AtlassianAddon.new sample_descriptor [] "/jira/addon" None None None empty_backend).

(** The text of a string key is the string; the sample conversion knows no
    other keys. *)
Definition string_key (v : json) : option string :=
  match v with
  | JStr s => Some s
  | _ => None
  end.

Definition sample_server : IJiraConnection :=
  {| host := "https://jira.example.com"; username := "admin";
     apiToken := "token"; client := None |}.

Definition sample_urljoin (a b : string) : string := a +:+ b.
Definition sample_base64 (s : string) : string := s.

(** A server that answers 200 with a [upm-token] header. *)
Definition answers_with_token (_ : AxiosRequestConfig) : promise AxiosResponse :=
  Returned {| status := 200; statusText := "OK";
              headers := {[ "upm-token" := "-1234567890" ]} |}.

(** A server that turns the credentials down: axios rejects a status outside
    2xx. *)
Definition answers_401 (_ : AxiosRequestConfig) : promise AxiosResponse :=
  Thrown (ThrownError "Error" "Request failed with status code 401").

(** What follows the invocation of the matching handler: the success reply,
    or the [catch] block. *)
Definition after_handler (r : completion bool) : async unit :=
  match r with
  | Returned _ => sendError 200 "Event handled successfully"
  | Thrown e => on_exception e
  end.

(** ** [registration.ts]: [installApp] and [removeApp] *)

Section RegistrationCalls.
Variable urljoin : string -> string -> string.
Variable base64 : string -> string.
Variable axios : AxiosRequestConfig -> promise AxiosResponse.

(** [res.status > 200 && res.status < 300] *)
Definition status_accepted (res : AxiosResponse) : bool :=
  (200 <? status res) && (status res <? 300).

(** [axios(request).then(onResponse).catch(onError)], awaited: the shape both
    functions share.  The [then] callback logs [failed] with the status when
    the status is not accepted; the [catch] callback logs [threw] with
    [err.toString()]. *)
Definition submitted (request : AxiosRequestConfig) (failed threw : string) : async bool :=
  match axios request with
  | Returned res =>
      if status_accepted res then ret true
      else
        emit (Log (failed +:+ " Status: " +:+ pretty (status res) +:+ ", "
                   +:+ statusText res)) ;;
        ret false
  | Thrown err =>
      s <- toString err ;;
      emit (Log (threw +:+ s)) ;;
      ret false
  end.

(** The [request] of [installApp]. *)
Definition install_request (server : IJiraConnection)
    (upmToken descriptorUrl name : string) : AxiosRequestConfig :=
  getAxiosConfig urljoin base64 "post" server "application/json"
    (Some (JObj [("token", JStr upmToken)]))
    (Some (JObj [("pluginUri", JStr descriptorUrl); ("pluginName", JStr name)]))
    None.

Definition installApp (server : IJiraConnection) (upmToken descriptorUrl name : string)
    : async bool :=
  submitted (install_request server upmToken descriptorUrl name)
    "Failed to install Jira Addon on the server."
    "Failed to install Jira Addon on the server due to an exception: ".

(** The [request] of [removeApp]. *)
Definition remove_request (server : IJiraConnection) (addonKey : string)
    : AxiosRequestConfig :=
  getAxiosConfig urljoin base64 "delete" server "application/json"
    undefined undefined (Some ("/" +:+ addonKey +:+ "-key")).

Definition removeApp (server : IJiraConnection) (addonKey : string) : async bool :=
  submitted (remove_request server addonKey)
    "Failed to remove Jira Addon on the server."
    "Failed to remove Jira Addon on the server due to an exception: ".
End RegistrationCalls.

(** ** The view-parameters middleware *)

Module ViewParameters.
(** [uri.indexOf('/')] on a string: the first position of the character,
    [-1] when it does not occur. *)
Fixpoint indexOf_from (c : Ascii.ascii) (s : string) (i : Z) : Z :=
  match s with
  | EmptyString => -1
  | String a rest => if Ascii.eqb a c then i else indexOf_from c rest (i + 1)
  end.

Definition indexOf (c : Ascii.ascii) (s : string) : Z := indexOf_from c s 0.

(** [extractHost] on a string. *)
Definition host_of (uri : string) : string :=
  let pathIndex := indexOf "/"%char uri in
  if -1 <? pathIndex then String.substring 0 (Z.to_nat pathIndex) uri else uri.

Definition is_slash (v : json) : bool := strict_eq "/" (Some v).

(** [extractHost(uri)] as the middleware calls it, on an untyped value: a
    string has [indexOf] and [substring]; an array has [indexOf] only; nothing
    else has [indexOf]. *)
Definition extractHost (uri : any) : completion any :=
  match uri with
  | Some (JStr s) => Returned (Some (JStr (host_of s)))
  | Some (JArr items) =>
      if existsb is_slash items then Thrown (TypeError "uri.substring is not a function")
      else Returned uri
  | Some _ => Thrown (TypeError "uri.indexOf is not a function")
  | None => Thrown (TypeError "Cannot read properties of undefined (reading 'indexOf')")
  end.

Definition getHostScriptUrl : string := "https://connect-cdn.atl-paas.net/all.js".

(** The request as the middleware reads it: [req.query] and [req.body]. *)
Record Request := {
  query : list (string * json);
  body : any
}.

(** [res.locals], and the [params] record the middleware builds: a member
    that is present with value [undefined] is [Some None]. *)
Abbreviation locals := (gmap string any).

Inductive result :=
| Continued (log : list string) (res_locals : locals)   (* res.locals set, next() *)
| Raised (log : list string) (e : thrown).

(** The locals and the log of a run, for a run that went on. *)
Definition locals_of (r : result) : locals :=
  match r with
  | Continued _ after => after
  | Raised _ _ => ∅
  end.

Definition log_of (r : result) : list string :=
  match r with
  | Continued log _ => log
  | Raised log _ => log
  end.

Section Middleware.
(** The language's [+] on two untyped values. *)
Variable plus : any -> any -> json.
(** [app.get('env')] *)
Variable env : any.
Variable verifiedParameters : option (list (string * json)).

Definition hostResourceUrl (baseUrl : any) (ext : string) : json :=
  let resource :=
    if strict_eq "development" env then "all-debug." +:+ ext else "all." +:+ ext in
  plus (Some (plus baseUrl (Some (JStr "/atlassian-connect/")))) (Some (JStr resource)).

Definition getParam (req : Request) (k : string) : any :=
  match assoc k (query req) with
  | Some value => Some value
  | None => if truthy (body req) then prop (body req) k else undefined
  end.

Definition getBaseUrlFromQueryParameters (req : Request) : json :=
  match getParam req "xdm_e" with
  | Some hostUrl =>
      if truthy (Some hostUrl) then
        plus (Some hostUrl)
          (if truthy (getParam req "cp") then getParam req "cp" else Some (JStr ""))
      else JStr ""
  | None => JStr ""
  end.

(** [if (v) { params[k] = v }] *)
Definition set_if_truthy (k : string) (v : any) (params : locals) : locals :=
  if truthy v then <[k := v]> params else params.

Definition deprecation_log : list string :=
  ["Please note that timezone, locale, userId and userKey context parameters are deprecated.";
   "See https://ecosystem.atlassian.net/browse/ACEJS-115"].

(** The [params] record up to the derived parameters. *)
Definition request_params (req : Request) : locals :=
  let params : locals :=
    <["token" := Some (JStr "")]>
      (<["clientKey" := Some (JStr "")]>
         (<["localBaseUrl" := Some (JStr "")]>
            (<["license" := getParam req "lic"]>
               (<["addonKey" := Some (JStr "")]>
                  (<["title" := Some (JStr "Nexus Addon")]> ∅))))) in
  let params := set_if_truthy "timezone" (getParam req "tz") params in
  let params := set_if_truthy "locale" (getParam req "loc") params in
  let params := set_if_truthy "userId" (getParam req "user_id") params in
  let params := <["hostBaseUrl" := Some (getBaseUrlFromQueryParameters req)]> params in
  match verifiedParameters with
  | Some verified =>
      let params := set_if_truthy "userId" (assoc "userKey" verified) params in
      let params := <["userAccountId" := assoc "userAccountId" verified]> params in
      let params := <["clientKey" := assoc "clientKey" verified]> params in
      let params := <["hostBaseUrl" := assoc "hostBaseUrl" verified]> params in
      let params := <["token" := assoc "token" verified]> params in
      set_if_truthy "context" (assoc "context" verified) params
  | None => params
  end.

Definition deprecated_used (req : Request) : bool :=
  truthy (getParam req "tz") || truthy (getParam req "loc")
  || truthy (getParam req "user_id").

(** The middleware returned by the module's export. *)
Definition middleware (req : Request) (res_locals : locals) : result :=
  let log := if deprecated_used req then deprecation_log else [] in
  let params := request_params req in
  let hostBaseUrl := default undefined (params !! "hostBaseUrl") in
  match extractHost hostBaseUrl with
  | Returned hostUrl =>
      let params := <["hostUrl" := hostUrl]> params in
      let params :=
        <["hostStylesheetUrl" := Some (hostResourceUrl hostBaseUrl "css")]> params in
      let params := <["hostScriptUrl" := Some (JStr getHostScriptUrl)]> params in
      Continued log (params ∪ res_locals)
  | Thrown e => Raised log e
  end.
End Middleware.
End ViewParameters.

(** ** The tenant records *)

(** Every record of the store is an object. *)
Definition records_are_objects (db : Keyv.t) : Prop :=
  forall (k : string) (v : json),
    Keyv.entries db !! k = Some v -> exists fields, v = JObj fields.

(** ** More sample data *)

(** [{ clientKey: "T1", sharedSecret: "S1", baseUrl: "https://t1.atlassian.net" }] *)
Definition install_T1 : Request :=
  {| req_body :=
       Some (JObj [("clientKey", JStr "T1"); ("sharedSecret", JStr "S1");
                   ("baseUrl", JStr "https://t1.atlassian.net")]) |}.

(** The same tenant with a rotated secret. *)
Definition reinstall_T1 : Request :=
  {| req_body := Some (JObj [("clientKey", JStr "T1"); ("sharedSecret", JStr "S2")]) |}.

Definition uninstall_T1 : Request :=
  {| req_body := Some (JObj [("clientKey", JStr "T1")]) |}.

(** [{ clientKey: "" }] *)
Definition empty_key_request : Request :=
  {| req_body := Some (JObj [("clientKey", JStr "")]) |}.

(** [async () => { throw new Error("boom") }] *)
Definition throws_error : WebhookHandler := fun _ => Thrown (ThrownError "Error" "boom").

Definition answers (code : Z) (text : string) (_ : AxiosRequestConfig)
    : promise AxiosResponse :=
  Returned {| status := code; statusText := text; headers := ∅ |}.

(** String concatenation, the only use of [+] the samples need. *)
Definition sample_plus (a b : any) : json :=
  match a, b with
  | Some (JStr x), Some (JStr y) => JStr (x +:+ y)
  | _, _ => JNull
  end.


Definition production : any := Some (JStr "production").

(** A request that tries to pass an identity in its query string. *)
Definition forged_query : ViewParameters.Request :=
  {| ViewParameters.query :=
       [("clientKey", JStr "T2"); ("token", JStr "forged"); ("lic", JStr "active")];
     ViewParameters.body := None |}.


(** * Properties *)

(** ** [findIndex] *)

Section FindIndex.
Context {A : Type} (p : A -> bool).

Lemma findIndex_from_first (l : list A) :
  forall (i : Z) (n : nat) (x : A),
    l !! n = Some x -> p x = true ->
    (forall (j : nat) (y : A), (j < n)%nat -> l !! j = Some y -> p y = false) ->
    findIndex_from p l i = i + Z.of_nat n.
Proof.
  induction l as [|a l IH]; intros i n x Hn Hp Hbefore.
  - discriminate Hn.
  - destruct n as [|n]; simpl in *.
    + injection Hn as ->. rewrite Hp. lia.
    + rewrite (Hbefore 0%nat a) by (lia || reflexivity).
      rewrite (IH (i + 1) n x Hn Hp).
      * lia.
      * intros j y Hj Hy. apply (Hbefore (S j) y); [lia | exact Hy].
Qed.

Lemma findIndex_from_none (l : list A) :
  forall i : Z, Forall (fun x => p x = false) l -> findIndex_from p l i = -1.
Proof.
  induction l as [|a l IH]; intros i Hall; simpl.
  - reflexivity.
  - inversion Hall as [|? ? Ha Hl]; subst. rewrite Ha. apply IH, Hl.
Qed.

(** Some match implies a first match. *)
Lemma first_match (l : list A) :
  forall (n : nat) (x : A),
    l !! n = Some x -> p x = true ->
    exists (n0 : nat) (x0 : A),
      (n0 <= n)%nat /\ l !! n0 = Some x0 /\ p x0 = true /\
      forall (j : nat) (y : A), (j < n0)%nat -> l !! j = Some y -> p y = false.
Proof.
  induction l as [|a l IH]; intros n x Hn Hp.
  - discriminate Hn.
  - destruct (p a) eqn:Ha.
    + exists 0%nat, a. repeat split; [lia | assumption | intros j y Hj; lia].
    + destruct n as [|n]; simpl in Hn.
      * injection Hn as ->. congruence.
      * destruct (IH n x Hn Hp) as (n0 & x0 & Hle & Hn0 & Hp0 & Hbefore).
        exists (S n0), x0. repeat split; [lia | exact Hn0 | exact Hp0 |].
        intros [|j] y Hj Hy; simpl in Hy.
        -- injection Hy as <-. exact Ha.
        -- apply (Hbefore j y); [lia | exact Hy].
Qed.
End FindIndex.

(** ** The webhook route, case by case *)

Lemma calls_app (t1 t2 : list effect) : calls (t1 ++ t2) = calls t1 ++ calls t2.
Proof. apply omap_app. Qed.

Lemma calls_check_event_param (req : WebhookRequest) :
  calls (trace (check_event_param req)) = [].
Proof. unfold check_event_param. destruct (String.eqb _ _); reflexivity. Qed.

Lemma check_event_param_named (req : WebhookRequest) :
  params_event req <> "" -> check_event_param req = ret tt.
Proof.
  intros Hne. unfold check_event_param.
  destruct (String.eqb_spec (params_event req) ""); [contradiction | reflexivity].
Qed.

Lemma webhook_route_found (webhooks : list WebhookConfiguration)
    (req : WebhookRequest) (payload : IWebhookPayload.t) (n : nat)
    (wh : WebhookConfiguration) :
  body req = Some payload ->
  webhooks !! n = Some wh ->
  event_matches payload wh = true ->
  (forall (j : nat) (y : WebhookConfiguration),
      (j < n)%nat -> webhooks !! j = Some y -> event_matches payload y = false) ->
  webhook_route webhooks req =
    (check_event_param req ;; emit (Call n payload) ;; after_handler (handler wh payload)).
Proof.
  intros Hbody Hn Hmatch Hfirst. unfold webhook_route, findIndex.
  rewrite Hbody, (findIndex_from_first _ _ 0 n wh Hn Hmatch Hfirst).
  replace (0 <=? 0 + Z.of_nat n) with true by (symmetry; apply Z.leb_le; lia).
  unfold await_handler. rewrite Z.add_0_l, Nat2Z.id, Hn.
  destruct (check_event_param req) as [t0 [[]|e0]]; [|reflexivity].
  destruct (handler wh payload) as [b|e]; simpl.
  - reflexivity.
  - destruct (on_exception e) as [t r]. reflexivity.
Qed.

Lemma webhook_route_not_found (webhooks : list WebhookConfiguration)
    (req : WebhookRequest) (payload : IWebhookPayload.t) :
  body req = Some payload ->
  Forall (fun wh => event_matches payload wh = false) webhooks ->
  webhook_route webhooks req =
    (check_event_param req ;;
     emit (Log ("Webhook event handler not found for " +:+ IWebhookPayload.event payload)) ;;
     sendError 404 "Event handler not found").
Proof.
  intros Hbody Hnone. unfold webhook_route, findIndex.
  rewrite Hbody, (findIndex_from_none _ _ 0 Hnone).
  destruct (check_event_param req) as [t0 [[]|e0]]; reflexivity.
Qed.

(** When [e.toString()] returns, the [catch] block logs the text and sends
    the 500 reply. *)
Lemma on_exception_text (e : thrown) (s : string) :
  toString e = ret s ->
  on_exception e =
    ([Log ("Unable to handle a webhook event that  was received from Jira: " +:+ s);
      Respond 500 {| code := 500;
                     msg := "Exception thrown during handling of webhook event" |}],
     Returned tt).
Proof. intros Htext. unfold on_exception. rewrite Htext. reflexivity. Qed.

Lemma webhook_route_handled (webhooks : list WebhookConfiguration)
    (req : WebhookRequest) (payload : IWebhookPayload.t) (n : nat)
    (wh : WebhookConfiguration) (b : bool) :
  params_event req <> "" ->
  body req = Some payload ->
  webhooks !! n = Some wh ->
  event_matches payload wh = true ->
  (forall (j : nat) (y : WebhookConfiguration),
      (j < n)%nat -> webhooks !! j = Some y -> event_matches payload y = false) ->
  handler wh payload = Returned b ->
  webhook_route webhooks req =
    ([Call n payload;
      Respond 200 {| code := 200; msg := "Event handled successfully" |}],
     Returned tt).
Proof.
  intros Hparam Hbody Hn Hmatch Hfirst Hret.
  rewrite (webhook_route_found _ _ _ _ _ Hbody Hn Hmatch Hfirst).
  rewrite (check_event_param_named _ Hparam), Hret. reflexivity.
Qed.

(** A payload that names its event in [event] only is never matched. *)
Lemma event_member_not_consulted (payload : IWebhookPayload.t)
    (webhooks : list WebhookConfiguration) :
  assoc "webhookEvent" (IWebhookPayload.index payload) = None ->
  Forall (fun wh => event_matches payload wh = false) webhooks.
Proof.
  intros Hnone. apply Forall_forall. intros wh _.
  unfold event_matches, IWebhookPayload.get. simpl. rewrite Hnone. reflexivity.
Qed.

(** C1.  A request whose payload has the documented shape
    [{ timestamp, event }] and whose [event] equals the [event] of the
    registered configuration is not dispatched: the route looks the name up
    in [payload.webhookEvent], finds nothing, calls no handler and answers
    404 "Event handler not found" (its own log line prints [body.event]). *)
Theorem documented_event_is_not_dispatched :
  IWebhookPayload.event documented_payload
    = IWebhookDefinition.event (definition (webhook_for jira_issue_created succeeds)) /\
  webhook_route [webhook_for jira_issue_created succeeds]
      (post_webhook_request documented_payload)
    = ([Log "Webhook event handler not found for jira:issue_created";
        Respond 404 {| code := 404; msg := "Event handler not found" |}],
       Returned tt).
Proof. split; reflexivity. Qed.

(** C5.  When two configurations of the batch carry the name of the inbound
    event, the route calls exactly one handler, once, with the payload: the
    handler of the first configuration of the batch that carries the name. *)
Theorem duplicate_event_first_match_only (webhooks : list WebhookConfiguration)
    (req : WebhookRequest) (payload : IWebhookPayload.t) (name : string)
    (i j : nat) (wi wj : WebhookConfiguration) :
  body req = Some payload ->
  IWebhookPayload.get payload "webhookEvent" = Some (JStr name) ->
  i <> j ->
  webhooks !! i = Some wi -> IWebhookDefinition.event (definition wi) = name ->
  webhooks !! j = Some wj -> IWebhookDefinition.event (definition wj) = name ->
  exists (n : nat) (wh : WebhookConfiguration),
    webhooks !! n = Some wh /\
    IWebhookDefinition.event (definition wh) = name /\
    (n <= i)%nat /\ (n <= j)%nat /\
    (forall (k : nat) (wk : WebhookConfiguration),
        (k < n)%nat -> webhooks !! k = Some wk ->
        IWebhookDefinition.event (definition wk) <> name) /\
    calls (trace (webhook_route webhooks req)) = [(n, payload)].
Proof.
  intros Hbody Hname _ Hi Hei Hj Hej.
  assert (Hm : forall wh, event_matches payload wh = true <->
                          IWebhookDefinition.event (definition wh) = name).
  { intros wh. unfold event_matches. rewrite Hname. simpl. apply String.eqb_eq. }
  destruct (first_match (event_matches payload) webhooks i wi Hi)
    as (n & wh & Hle & Hn & Hp & Hfirst); [apply Hm, Hei |].
  exists n, wh. split; [exact Hn |]. split; [apply Hm, Hp |].
  split; [exact Hle |]. split.
  { destruct (Nat.le_gt_cases n j) as [|Hlt]; [assumption |].
    pose proof (proj2 (Hm wj) Hej) as Hwj.
    rewrite (Hfirst j wj Hlt Hj) in Hwj. discriminate Hwj. }
  split.
  { intros k wk Hk Hwk Heq. apply Hm in Heq.
    rewrite (Hfirst k wk Hk Hwk) in Heq. discriminate. }
  rewrite (webhook_route_found _ _ _ _ _ Hbody Hn Hp Hfirst).
  destruct (check_event_param req) as [t0 [[]|e0]] eqn:Hpre.
  - pose proof (calls_check_event_param req) as Hc. rewrite Hpre in Hc. simpl in Hc.
    unfold after_handler, on_exception.
    destruct (handler wh payload) as [b|[| |s|nm m]]; simpl;
      rewrite calls_app, Hc; reflexivity.
  - unfold check_event_param in Hpre.
    destruct (String.eqb _ _); discriminate Hpre.
Qed.

Lemma duplicate_event_first_match_only_witness :
  let batch := [webhook_for "jira:issue_updated" succeeds;
                webhook_for jira_issue_created declines;
                webhook_for jira_issue_created succeeds] in
  exists (n : nat) (wh : WebhookConfiguration),
    batch !! n = Some wh /\
    IWebhookDefinition.event (definition wh) = jira_issue_created /\
    (n <= 1)%nat /\ (n <= 2)%nat /\
    (forall (k : nat) (wk : WebhookConfiguration),
        (k < n)%nat -> batch !! k = Some wk ->
        IWebhookDefinition.event (definition wk) <> jira_issue_created) /\
    calls (trace (webhook_route batch (post_webhook_request jira_payload)))
      = [(n, jira_payload)].
Proof.
  intros batch.
  apply (duplicate_event_first_match_only batch
           (post_webhook_request jira_payload) jira_payload jira_issue_created
           1%nat 2%nat
           (webhook_for jira_issue_created declines)
           (webhook_for jira_issue_created succeeds));
    [reflexivity | reflexivity | lia | reflexivity | reflexivity
     | reflexivity | reflexivity].
Defined.

(** C6.  When no configuration of the batch carries the name the route looks
    up, the route logs, answers 404 "Event handler not found", calls no
    handler, does not report through [next] and returns normally. *)
Theorem unmatched_event_not_found (webhooks : list WebhookConfiguration)
    (req : WebhookRequest) (payload : IWebhookPayload.t) :
  params_event req <> "" ->
  body req = Some payload ->
  (forall wh : WebhookConfiguration,
      wh ∈ webhooks ->
      IWebhookPayload.get payload "webhookEvent"
        <> Some (JStr (IWebhookDefinition.event (definition wh)))) ->
  webhook_route webhooks req
    = ([Log ("Webhook event handler not found for " +:+ IWebhookPayload.event payload);
        Respond 404 {| code := 404; msg := "Event handler not found" |}],
       Returned tt) /\
  calls (trace (webhook_route webhooks req)) = [].
Proof.
  intros Hparam Hbody Hnone.
  assert (Hroute : webhook_route webhooks req
    = ([Log ("Webhook event handler not found for " +:+ IWebhookPayload.event payload);
        Respond 404 {| code := 404; msg := "Event handler not found" |}],
       Returned tt)).
  { rewrite (webhook_route_not_found _ _ payload Hbody).
    - rewrite (check_event_param_named _ Hparam). reflexivity.
    - apply Forall_forall. intros wh Hin. specialize (Hnone wh Hin).
      unfold event_matches, strict_eq.
      destruct (IWebhookPayload.get payload "webhookEvent") as [[| | |s| |]|];
        try reflexivity.
      destruct (String.eqb_spec (IWebhookDefinition.event (definition wh)) s);
        [subst; contradiction | reflexivity]. }
  split; [exact Hroute | rewrite Hroute; reflexivity].
Qed.

Lemma unmatched_event_not_found_witness :
  webhook_route [webhook_for "jira:issue_updated" succeeds]
      (post_webhook_request jira_payload)
    = ([Log ("Webhook event handler not found for " +:+ IWebhookPayload.event jira_payload);
        Respond 404 {| code := 404; msg := "Event handler not found" |}],
       Returned tt) /\
  calls (trace (webhook_route [webhook_for "jira:issue_updated" succeeds]
                  (post_webhook_request jira_payload))) = [].
Proof.
  apply (unmatched_event_not_found
           [webhook_for "jira:issue_updated" succeeds]
           (post_webhook_request jira_payload) jira_payload).
  - discriminate.
  - reflexivity.
  - intros wh Hin. apply list_elem_of_singleton in Hin. subst wh. discriminate.
Defined.

(** C7.  A handler that rejects with [undefined] is called, the [catch] block
    itself raises a [TypeError] on [e.toString()], no response is sent and
    the exception leaves the route. *)
Theorem rejection_with_undefined_escapes :
  webhook_route [webhook_for jira_issue_created rejects_with_undefined]
      (post_webhook_request jira_payload)
    = ([Call 0 jira_payload],
       Thrown (TypeError "Cannot read properties of undefined (reading 'toString')")) /\
  responses (trace (webhook_route [webhook_for jira_issue_created rejects_with_undefined]
                      (post_webhook_request jira_payload))) = [].
Proof. split; reflexivity. Qed.

(** What the [catch] block achieves: when the matched handler throws a value
    [e] and [e.toString()] returns the text [s], the route logs [s], sends the
    500 reply, once, and returns normally. *)
Lemma handler_exception_reported (webhooks : list WebhookConfiguration)
    (req : WebhookRequest) (payload : IWebhookPayload.t) (n : nat)
    (wh : WebhookConfiguration) (e : thrown) (s : string) :
  params_event req <> "" ->
  body req = Some payload ->
  webhooks !! n = Some wh ->
  event_matches payload wh = true ->
  (forall (j : nat) (y : WebhookConfiguration),
      (j < n)%nat -> webhooks !! j = Some y -> event_matches payload y = false) ->
  handler wh payload = Thrown e ->
  toString e = ret s ->
  webhook_route webhooks req
    = ([Call n payload;
        Log ("Unable to handle a webhook event that  was received from Jira: " +:+ s);
        Respond 500 {| code := 500;
                       msg := "Exception thrown during handling of webhook event" |}],
       Returned tt).
Proof.
  intros Hparam Hbody Hn Hmatch Hfirst Hthrow Htext.
  rewrite (webhook_route_found _ _ _ _ _ Hbody Hn Hmatch Hfirst).
  rewrite (check_event_param_named _ Hparam), Hthrow. simpl.
  rewrite (on_exception_text e s Htext). reflexivity.
Qed.

(** ** The route and the batch it was registered with *)

Lemma findIndex_from_fmap {A B : Type} (f : A -> B) (p q : B -> bool) (l : list A) :
  (forall x : A, p (f x) = q (f x)) ->
  forall i : Z, findIndex_from p (f <$> l) i = findIndex_from (fun x => q (f x)) l i.
Proof.
  intros Hpq. induction l as [|a l IH]; intros i; simpl.
  - reflexivity.
  - rewrite Hpq. destruct (q (f a)); [reflexivity | apply IH].
Qed.

(** Setting the urls changes nothing to the dispatch. *)
Lemma webhook_route_with_url (webhooks : list WebhookConfiguration) (req : WebhookRequest) :
  webhook_route (AtlassianAddon.with_url <$> webhooks) req = webhook_route webhooks req.
Proof.
  unfold webhook_route. destruct (body req) as [payload|]; [| reflexivity].
  unfold findIndex.
  rewrite (findIndex_from_fmap AtlassianAddon.with_url
             (event_matches payload) (event_matches payload)) by reflexivity.
  change (fun x => event_matches payload (AtlassianAddon.with_url x))
    with (event_matches payload).
  destruct (0 <=? findIndex_from (event_matches payload) webhooks 0); [| reflexivity].
  unfold await_handler. rewrite list_lookup_fmap.
  destruct (webhooks !! _) as [wh|]; reflexivity.
Qed.

(** [addWebhooks] appends one POST route on [<addonPath>/webhook/:event],
    behind the body parser and the authentication middleware, that dispatches
    over the batch. *)
Lemma addWebhooks_route (this : AtlassianAddon.t) (webhooks : list WebhookConfiguration) :
  AtlassianAddon.subApp (AtlassianAddon.addWebhooks this webhooks)
    = AtlassianAddon.subApp this
        ++ [post_webhook (AtlassianAddon._addonPath this +:+ "/webhook/:event")
              [bodyParser_json; authenticationMiddleware]
              (AtlassianAddon.with_url <$> webhooks)].
Proof. reflexivity. Qed.

(** Whatever the batch and the request, one run of the route calls at most
    one handler. *)
Lemma webhook_route_calls_at_most_one (webhooks : list WebhookConfiguration)
    (req : WebhookRequest) :
  (length (calls (trace (webhook_route webhooks req))) <= 1)%nat.
Proof.
  unfold webhook_route, check_event_param.
  destruct (String.eqb (params_event req) "");
    (destruct (body req) as [payload|]; [| simpl; lia]);
    (destruct (0 <=? findIndex (event_matches payload) webhooks); [| simpl; lia]);
    unfold await_handler;
    (destruct (webhooks !! _) as [wh|]; [| simpl; lia]);
    destruct (handler wh payload) as [b|[| |s|nm m]]; simpl; lia.
Qed.

(** ** The tenant store and the lifecycle callbacks *)

Lemma getClientData_missing (this : AtlassianAddon.t) (clientKey k : string) :
  Keyv.get (AtlassianAddon._db this) clientKey = None ->
  AtlassianAddon.getClientData this clientKey k = Returned undefined.
Proof.
  intros Hmissing. unfold AtlassianAddon.getClientData. rewrite Hmissing. reflexivity.
Qed.

(** C2.  For a tenant key without a record in the store, [getSharedSecret]
    resolves to [undefined]: it neither yields a secret nor throws. *)
Theorem getSharedSecret_unknown_tenant (this : AtlassianAddon.t) (clientKey : string) :
  Keyv.get (AtlassianAddon._db this) clientKey = None ->
  AtlassianAddon.getSharedSecret this clientKey = Returned undefined.
Proof. intros Hmissing. apply getClientData_missing, Hmissing. Qed.

Lemma getSharedSecret_unknown_tenant_witness :
  Keyv.get (AtlassianAddon._db sample_addon) "T1" = None /\
  AtlassianAddon.getSharedSecret sample_addon "T1" = Returned undefined.
Proof.
  split; [reflexivity |].
  apply (getSharedSecret_unknown_tenant sample_addon "T1"). reflexivity.
Defined.

Lemma set_db_same (this : AtlassianAddon.t) :
  AtlassianAddon.set_db this (AtlassianAddon._db this) = this.
Proof. destruct this; reflexivity. Qed.

Lemma Keyv_delete_missing (db : Keyv.t) (k : string) :
  Keyv.get db k = None -> Keyv.delete db k = db.
Proof.
  destruct db as [u ns m]. unfold Keyv.get, Keyv.delete. simpl.
  intros Hmissing. rewrite (delete_id m k Hmissing). reflexivity.
Qed.

Lemma Keyv_delete_twice (db : Keyv.t) (k : string) :
  Keyv.delete (Keyv.delete db k) k = Keyv.delete db k.
Proof.
  destruct db as [u ns m]. unfold Keyv.delete. simpl.
  rewrite delete_delete_eq. reflexivity.
Qed.

Section LifecycleProperties.
Variable key_text : json -> option string.

(** C3.  An install notification without a body, or whose body has no
    [clientKey] member, is answered with the error reply
    [{ code: 500, msg }] and leaves the add-on, its store included, as it
    was. *)
Theorem installed_malformed (this : AtlassianAddon.t) (req : Request) :
  req_body req = None \/ prop (req_body req) "clientKey" = None ->
  AtlassianAddon.installed key_text this req
    = (this,
       ([Respond 500 {| code := 500;
                        msg := "Received malformed installation payload from Jira" |}],
        Returned tt)).
Proof.
  intros Hmalformed.
  assert (Hkey : prop (req_body req) "clientKey" = None).
  { destruct Hmalformed as [-> | H]; [reflexivity | exact H]. }
  unfold AtlassianAddon.installed, AtlassianAddon.with_clientKey.
  destruct (req_body req) as [clientData|]; [| reflexivity].
  rewrite Hkey. destruct (negb (truthy (Some clientData))); reflexivity.
Qed.

(** C4.  An uninstall notification for a tenant key without a stored record
    is answered with [{ code: 200, msg }] and leaves the store as it was;
    and whatever the store holds, a second uninstall with the same
    notification gives the same store and the same reply as the first. *)
Theorem uninstalled_unknown_tenant (this : AtlassianAddon.t) (req : Request)
    (clientKey : json) (k : string) :
  prop (req_body req) "clientKey" = Some clientKey ->
  truthy (Some clientKey) = true ->
  key_text clientKey = Some k ->
  (Keyv.get (AtlassianAddon._db this) k = None ->
   AtlassianAddon.uninstalled key_text this req
     = (this,
        ([Respond 200 {| code := 200; msg := "Uninstall completed successfully" |}],
         Returned tt))) /\
  AtlassianAddon.uninstalled key_text
      (fst (AtlassianAddon.uninstalled key_text this req)) req
    = AtlassianAddon.uninstalled key_text this req.
Proof.
  intros Hkey Htruthy Htext.
  assert (Hrun : forall a : AtlassianAddon.t,
    AtlassianAddon.uninstalled key_text a req
      = (AtlassianAddon.set_db a (Keyv.delete (AtlassianAddon._db a) k),
         sendError 200 "Uninstall completed successfully")).
  { intros a. unfold AtlassianAddon.uninstalled, AtlassianAddon.with_clientKey.
    destruct (req_body req) as [[| | | | |fields]|]; try discriminate Hkey.
    change (prop (Some (JObj fields)) "clientKey") with (assoc "clientKey" fields) in *.
    rewrite Hkey, Htruthy, Htext. reflexivity. }
  split.
  - intros Hmissing. rewrite Hrun, (Keyv_delete_missing _ _ Hmissing), set_db_same.
    reflexivity.
  - rewrite !Hrun. simpl. rewrite Keyv_delete_twice. reflexivity.
Qed.
End LifecycleProperties.

Lemma installed_malformed_witness :
  (req_body {| req_body := Some (JObj []) |} = None \/
   prop (req_body {| req_body := Some (JObj []) |}) "clientKey" = None) /\
  AtlassianAddon.installed string_key sample_addon {| req_body := Some (JObj []) |}
    = (sample_addon,
       ([Respond 500 {| code := 500;
                        msg := "Received malformed installation payload from Jira" |}],
        Returned tt)).
Proof.
  split; [right; reflexivity |].
  apply (installed_malformed string_key sample_addon {| req_body := Some (JObj []) |}).
  right. reflexivity.
Defined.

Lemma uninstalled_unknown_tenant_witness :
  let req := {| req_body := Some (JObj [("clientKey", JStr "T1")]) |} in
  Keyv.get (AtlassianAddon._db sample_addon) "T1" = None /\
  AtlassianAddon.uninstalled string_key sample_addon req
    = (sample_addon,
       ([Respond 200 {| code := 200; msg := "Uninstall completed successfully" |}],
        Returned tt)) /\
  AtlassianAddon.uninstalled string_key
      (fst (AtlassianAddon.uninstalled string_key sample_addon req)) req
    = AtlassianAddon.uninstalled string_key sample_addon req.
Proof.
  intros req.
  destruct (uninstalled_unknown_tenant string_key sample_addon req (JStr "T1") "T1")
    as [Hunchanged Htwice]; [reflexivity | reflexivity | reflexivity |].
  split; [reflexivity |]. split; [apply Hunchanged; reflexivity | exact Htwice].
Defined.

(** After an uninstall for a tenant, no secret is left to hand out. *)
Lemma getSharedSecret_after_uninstalled (key_text : json -> option string)
    (this : AtlassianAddon.t) (req : Request) (k : string) :
  prop (req_body req) "clientKey" = Some (JStr k) ->
  k <> "" ->
  key_text (JStr k) = Some k ->
  AtlassianAddon.getSharedSecret
      (fst (AtlassianAddon.uninstalled key_text this req)) k
    = Returned undefined.
Proof.
  intros Hkey Hne Htext. apply getClientData_missing.
  unfold AtlassianAddon.uninstalled, AtlassianAddon.with_clientKey.
  destruct (req_body req) as [[| | | | |fields]|]; try discriminate Hkey.
  change (prop (Some (JObj fields)) "clientKey") with (assoc "clientKey" fields) in *.
  rewrite Hkey. simpl. destruct (String.eqb_spec k ""); [contradiction |].
  simpl. rewrite Htext. simpl. unfold Keyv.get. simpl. apply lookup_delete_eq.
Qed.

(** ** Registration of the lifecycle endpoints *)

(** C9.  Whatever the state of the instance, once [addLifecycleEndpoints] has
    run, running it again changes nothing (routes, descriptor, application)
    and only logs the warning; in particular so does any call on a
    constructed instance, since the constructor has made the first one. *)
Theorem addLifecycleEndpoints_twice :
  (forall this : AtlassianAddon.t,
      AtlassianAddon.addLifecycleEndpoints (fst (AtlassianAddon.addLifecycleEndpoints this))
        = (fst (AtlassianAddon.addLifecycleEndpoints this),
           [Log "Trying to reinitialize lifecycle endpoints.   Skipping..."])) /\
  (forall (params : IAtlassianDescriptor.t) (subApp : Application) (addonPath : string)
          (dbConnectionString : option string) (maxTokenAge : option Z)
          (jiraConnection : option IJiraConnection)
          (store : string -> string -> gmap string json),
      let this := fst (AtlassianAddon.new params subApp addonPath dbConnectionString
                         maxTokenAge jiraConnection store) in
      AtlassianAddon.addLifecycleEndpoints this
        = (this, [Log "Trying to reinitialize lifecycle endpoints.   Skipping..."])).
Proof.
  assert (Hstep : forall this : AtlassianAddon.t,
    AtlassianAddon.addLifecycleEndpoints (fst (AtlassianAddon.addLifecycleEndpoints this))
      = (fst (AtlassianAddon.addLifecycleEndpoints this),
         [Log "Trying to reinitialize lifecycle endpoints.   Skipping..."])).
  { intros this. unfold AtlassianAddon.addLifecycleEndpoints at 2 3.
    destruct (AtlassianAddon._metaRouter this) as [r|] eqn:Hrouter.
    - simpl. unfold AtlassianAddon.addLifecycleEndpoints. rewrite Hrouter. reflexivity.
    - reflexivity. }
  split; [exact Hstep |].
  intros params subApp addonPath dbConnectionString maxTokenAge jiraConnection store.
  unfold AtlassianAddon.new. apply Hstep.
Qed.

(** The first call, for the record: on an instance without a meta router it
    mounts the router under [<addonPath>/meta], sets the two lifecycle paths
    and registers the three routes, silently. *)
Lemma addLifecycleEndpoints_first (this : AtlassianAddon.t) :
  AtlassianAddon._metaRouter this = None ->
  let '(this', log) := AtlassianAddon.addLifecycleEndpoints this in
  log = [] /\
  AtlassianAddon._metaRouter this'
    = Some {| uses := [bodyParser_json];
              routes := [("post", "/installed", installed_callback);
                         ("post", "/uninstalled", uninstalled_callback);
                         ("get", "/descriptor", descriptor_endpoint)] |} /\
  AtlassianAddon.subApp this'
    = AtlassianAddon.subApp this
        ++ [use_metaRouter (AtlassianAddon._addonPath this +:+ "/meta")] /\
  IAtlassianDescriptor.lifecycle (AtlassianAddon._descriptorData this')
    = Some {| installed_path := "/meta/installed";
              uninstalled_path := "/meta/uninstalled" |} /\
  AtlassianAddon._db this' = AtlassianAddon._db this.
Proof.
  intros Hrouter. unfold AtlassianAddon.addLifecycleEndpoints. rewrite Hrouter.
  repeat split.
Qed.

(** ** [getUpmToken] *)

(** C10, amended.  Whenever axios answers the request with a response,
    [getUpmToken] resolves to [undefined], whether or not the response carries
    a [upm-token] header: the value computed by the [then] callback is
    dropped.  Whenever axios rejects, [getUpmToken] rejects with the same
    reason: nothing catches it. *)
Theorem getUpmToken_undefined (urljoin : string -> string -> string)
    (base64 : string -> string)
    (axios : AxiosRequestConfig -> promise AxiosResponse)
    (server : IJiraConnection) :
  let request :=
    getAxiosConfig urljoin base64 "get" server
      "application/vnd.atl.plugins.installed+json"
      (Some (JObj [("os_authType", JStr "basic")])) None None in
  (forall res : AxiosResponse,
      axios request = Returned res ->
      getUpmToken urljoin base64 axios server = Returned None) /\
  (forall e : thrown,
      axios request = Thrown e ->
      getUpmToken urljoin base64 axios server = Thrown e).
Proof.
  intros request. split.
  - intros res Hres. unfold getUpmToken. fold request. rewrite Hres. reflexivity.
  - intros e Hrejected. unfold getUpmToken. fold request. rewrite Hrejected. reflexivity.
Qed.

Lemma getUpmToken_undefined_witness :
  upm_token_of {| status := 200; statusText := "OK";
                  headers := {[ "upm-token" := "-1234567890" ]} |}
    = Some "-1234567890" /\
  getUpmToken sample_urljoin sample_base64 answers_with_token sample_server
    = Returned None /\
  getUpmToken sample_urljoin sample_base64 answers_401 sample_server
    = Thrown (ThrownError "Error" "Request failed with status code 401").
Proof.
  destruct (getUpmToken_undefined sample_urljoin sample_base64 answers_with_token
              sample_server) as [Hanswered _].
  destruct (getUpmToken_undefined sample_urljoin sample_base64 answers_401
              sample_server) as [_ Hrejected].
  split; [reflexivity |]. split.
  - apply (Hanswered {| status := 200; statusText := "OK";
                        headers := {[ "upm-token" := "-1234567890" ]} |}).
    reflexivity.
  - apply Hrejected. reflexivity.
Defined.

(** When the server answers 401, axios rejects, nothing catches the
    rejection and [getUpmToken] rejects with it instead of resolving to
    [undefined]. *)
Lemma getUpmToken_rejects :
  getUpmToken sample_urljoin sample_base64 answers_401 sample_server
    = Thrown (ThrownError "Error" "Request failed with status code 401") /\
  getUpmToken sample_urljoin sample_base64 answers_401 sample_server
    <> Returned None.
Proof. split; [reflexivity | discriminate]. Qed.

(** * Further properties *)

(** ** Install, look up, uninstall *)

Lemma Keyv_get_set (db : Keyv.t) (k : string) (v : json) :
  Keyv.get (Keyv.set db k v) k = Some v.
Proof. unfold Keyv.get, Keyv.set. simpl. apply lookup_insert_eq. Qed.

Lemma Keyv_get_set_other (db : Keyv.t) (k k' : string) (v : json) :
  k <> k' -> Keyv.get (Keyv.set db k v) k' = Keyv.get db k'.
Proof. intros Hne. unfold Keyv.get, Keyv.set. simpl. by apply lookup_insert_ne. Qed.

Lemma Keyv_get_delete_other (db : Keyv.t) (k k' : string) :
  k <> k' -> Keyv.get (Keyv.delete db k) k' = Keyv.get db k'.
Proof. intros Hne. unfold Keyv.get, Keyv.delete. simpl. by apply lookup_delete_ne. Qed.

Lemma getClientData_same_record (a b : AtlassianAddon.t) (clientKey k : string) :
  Keyv.get (AtlassianAddon._db a) clientKey = Keyv.get (AtlassianAddon._db b) clientKey ->
  AtlassianAddon.getClientData a clientKey k = AtlassianAddon.getClientData b clientKey k.
Proof. intros Heq. unfold AtlassianAddon.getClientData. rewrite Heq. reflexivity. Qed.

Section TenantLifecycle.
Variable key_text : json -> option string.

Lemma with_clientKey_found (this : AtlassianAddon.t) (req : Request)
    (clientData clientKey : json)
    (found : json -> json -> AtlassianAddon.t * async unit) :
  req_body req = Some clientData ->
  prop (Some clientData) "clientKey" = Some clientKey ->
  truthy (Some clientKey) = true ->
  AtlassianAddon.with_clientKey this req found = found clientData clientKey.
Proof.
  intros Hbody Hkey Htruthy. unfold AtlassianAddon.with_clientKey. rewrite Hbody.
  destruct clientData as [| | | | |fields]; try discriminate Hkey.
  change (prop (Some (JObj fields)) "clientKey") with (assoc "clientKey" fields) in *.
  rewrite Hkey, Htruthy. reflexivity.
Qed.

Lemma with_clientKey_rejected (this : AtlassianAddon.t) (req : Request)
    (found : json -> json -> AtlassianAddon.t * async unit) :
  truthy (prop (req_body req) "clientKey") = false ->
  AtlassianAddon.with_clientKey this req found
    = (this, sendError 500 AtlassianAddon.msg_malformed).
Proof.
  intros Hfalsy. unfold AtlassianAddon.with_clientKey.
  destruct (req_body req) as [clientData|]; [| reflexivity].
  destruct (negb (truthy (Some clientData))); [reflexivity |].
  destruct (prop (Some clientData) "clientKey") as [clientKey|]; [| reflexivity].
  rewrite Hfalsy. reflexivity.
Qed.

Lemma installed_accepted (this : AtlassianAddon.t) (req : Request)
    (clientData clientKey : json) (k : string) :
  req_body req = Some clientData ->
  prop (Some clientData) "clientKey" = Some clientKey ->
  truthy (Some clientKey) = true ->
  key_text clientKey = Some k ->
  AtlassianAddon.installed key_text this req
    = (AtlassianAddon.set_db this (Keyv.set (AtlassianAddon._db this) k clientData),
       sendError 200 "Installation completed successfully").
Proof.
  intros Hbody Hkey Htruthy Htext. unfold AtlassianAddon.installed.
  rewrite (with_clientKey_found _ _ _ _ _ Hbody Hkey Htruthy), Htext. reflexivity.
Qed.

Lemma uninstalled_accepted (this : AtlassianAddon.t) (req : Request)
    (clientData clientKey : json) (k : string) :
  req_body req = Some clientData ->
  prop (Some clientData) "clientKey" = Some clientKey ->
  truthy (Some clientKey) = true ->
  key_text clientKey = Some k ->
  AtlassianAddon.uninstalled key_text this req
    = (AtlassianAddon.set_db this (Keyv.delete (AtlassianAddon._db this) k),
       sendError 200 "Uninstall completed successfully").
Proof.
  intros Hbody Hkey Htruthy Htext. unfold AtlassianAddon.uninstalled.
  rewrite (with_clientKey_found _ _ _ _ _ Hbody Hkey Htruthy), Htext. reflexivity.
Qed.

(** X1.  After an accepted install notification the shared secret of that
    tenant is the [sharedSecret] member of the notification ([undefined] when
    it has none), whatever the store held before; the reply is the 200
    reply. *)
Theorem installed_then_getSharedSecret (this : AtlassianAddon.t) (req : Request)
    (clientData clientKey : json) (k : string) :
  req_body req = Some clientData ->
  prop (Some clientData) "clientKey" = Some clientKey ->
  truthy (Some clientKey) = true ->
  key_text clientKey = Some k ->
  AtlassianAddon.getSharedSecret (fst (AtlassianAddon.installed key_text this req)) k
    = Returned (prop (Some clientData) "sharedSecret") /\
  snd (AtlassianAddon.installed key_text this req)
    = ([Respond 200 {| code := 200; msg := "Installation completed successfully" |}],
       Returned tt).
Proof.
  intros Hbody Hkey Htruthy Htext.
  rewrite (installed_accepted _ _ _ _ _ Hbody Hkey Htruthy Htext).
  split; [| reflexivity]. simpl.
  unfold AtlassianAddon.getSharedSecret, AtlassianAddon.getClientData. simpl.
  rewrite Keyv_get_set.
  destruct clientData as [| | | | |fields]; try discriminate Hkey. simpl.
  destruct (assoc "sharedSecret" fields) as [secret|] eqn:Hsecret.
  - rewrite bool_decide_eq_true_2 by eauto. reflexivity.
  - rewrite bool_decide_eq_false_2 by (intros [? ?]; discriminate). reflexivity.
Qed.

(** X2.  A lifecycle notification, well formed or not, leaves the record of
    every tenant other than the one it names as it was. *)
Theorem lifecycle_keeps_other_tenants (this : AtlassianAddon.t) (req : Request)
    (other k : string) :
  (forall clientKey : json,
      prop (req_body req) "clientKey" = Some clientKey ->
      key_text clientKey <> Some other) ->
  AtlassianAddon.getClientData
      (fst (AtlassianAddon.installed key_text this req)) other k
    = AtlassianAddon.getClientData this other k /\
  AtlassianAddon.getClientData
      (fst (AtlassianAddon.uninstalled key_text this req)) other k
    = AtlassianAddon.getClientData this other k.
Proof.
  intros Hother.
  destruct (truthy (prop (req_body req) "clientKey")) eqn:Htruthy.
  - destruct (req_body req) as [clientData|] eqn:Hbody; [| discriminate Htruthy].
    destruct (prop (Some clientData) "clientKey") as [clientKey|] eqn:Hkey;
      [| discriminate Htruthy].
    specialize (Hother clientKey eq_refl).
    destruct (key_text clientKey) as [k0|] eqn:Htext.
    + rewrite (installed_accepted _ _ _ _ _ Hbody Hkey Htruthy Htext).
      rewrite (uninstalled_accepted _ _ _ _ _ Hbody Hkey Htruthy Htext).
      assert (k0 <> other) by congruence.
      split; apply getClientData_same_record; simpl.
      * by apply Keyv_get_set_other.
      * by apply Keyv_get_delete_other.
    + unfold AtlassianAddon.installed, AtlassianAddon.uninstalled.
      rewrite !(with_clientKey_found _ _ _ _ _ Hbody Hkey Htruthy), Htext.
      split; reflexivity.
  - unfold AtlassianAddon.installed, AtlassianAddon.uninstalled.
    rewrite !(with_clientKey_rejected _ _ _ Htruthy). split; reflexivity.
Qed.

(** X3.  A reinstall replaces the record: two accepted install notifications
    for the same tenant leave the add-on as the second alone would. *)
Theorem reinstall_overwrites (this : AtlassianAddon.t) (first second : Request)
    (data1 key1 data2 key2 : json) (k : string) :
  req_body first = Some data1 -> prop (Some data1) "clientKey" = Some key1 ->
  truthy (Some key1) = true -> key_text key1 = Some k ->
  req_body second = Some data2 -> prop (Some data2) "clientKey" = Some key2 ->
  truthy (Some key2) = true -> key_text key2 = Some k ->
  fst (AtlassianAddon.installed key_text
         (fst (AtlassianAddon.installed key_text this first)) second)
    = fst (AtlassianAddon.installed key_text this second).
Proof.
  intros Hb1 Hk1 Ht1 Hx1 Hb2 Hk2 Ht2 Hx2.
  rewrite (installed_accepted _ first _ _ _ Hb1 Hk1 Ht1 Hx1).
  rewrite !(installed_accepted _ second _ _ _ Hb2 Hk2 Ht2 Hx2). simpl.
  destruct this as [app d age [u ns m] r path j].
  unfold AtlassianAddon.set_db, Keyv.set. simpl. rewrite insert_insert_eq. reflexivity.
Qed.

(** X4.  Install then uninstall is a round trip: for a tenant the store did
    not know, the add-on ends exactly as it started. *)
Theorem install_then_uninstall (this : AtlassianAddon.t) (install uninstall : Request)
    (data1 key1 data2 key2 : json) (k : string) :
  req_body install = Some data1 -> prop (Some data1) "clientKey" = Some key1 ->
  truthy (Some key1) = true -> key_text key1 = Some k ->
  req_body uninstall = Some data2 -> prop (Some data2) "clientKey" = Some key2 ->
  truthy (Some key2) = true -> key_text key2 = Some k ->
  Keyv.get (AtlassianAddon._db this) k = None ->
  fst (AtlassianAddon.uninstalled key_text
         (fst (AtlassianAddon.installed key_text this install)) uninstall)
    = this.
Proof.
  intros Hb1 Hk1 Ht1 Hx1 Hb2 Hk2 Ht2 Hx2 Hmissing.
  rewrite (installed_accepted _ install _ _ _ Hb1 Hk1 Ht1 Hx1).
  rewrite (uninstalled_accepted _ uninstall _ _ _ Hb2 Hk2 Ht2 Hx2). simpl.
  destruct this as [app d age [u ns m] r path j].
  unfold AtlassianAddon.set_db, Keyv.delete, Keyv.set, Keyv.get in *. simpl in *.
  rewrite delete_insert_eq, (delete_id m k Hmissing). reflexivity.
Qed.

(** X5.  A notification whose [clientKey] is missing or falsy (the empty
    string, [0], [null], [false]) is rejected by both callbacks with the 500
    reply, and nothing changes. *)
Theorem lifecycle_falsy_key_rejected (this : AtlassianAddon.t) (req : Request) :
  truthy (prop (req_body req) "clientKey") = false ->
  AtlassianAddon.installed key_text this req
    = (this,
       ([Respond 500 {| code := 500;
                        msg := "Received malformed installation payload from Jira" |}],
        Returned tt)) /\
  AtlassianAddon.uninstalled key_text this req
    = (this,
       ([Respond 500 {| code := 500;
                        msg := "Received malformed installation payload from Jira" |}],
        Returned tt)).
Proof.
  intros Hfalsy. unfold AtlassianAddon.installed, AtlassianAddon.uninstalled.
  rewrite !(with_clientKey_rejected _ _ _ Hfalsy). split; reflexivity.
Qed.

(** X6.  The callbacks only ever store objects: if every record of the store
    is an object, so is every record after any install or uninstall
    notification, and then [getClientData] never throws. *)
Theorem records_stay_objects (this : AtlassianAddon.t) (req : Request) :
  records_are_objects (AtlassianAddon._db this) ->
  records_are_objects (AtlassianAddon._db (fst (AtlassianAddon.installed key_text this req))) /\
  records_are_objects (AtlassianAddon._db (fst (AtlassianAddon.uninstalled key_text this req))) /\
  (forall clientKey k : string,
      exists v : any, AtlassianAddon.getClientData this clientKey k = Returned v).
Proof.
  intros Hobjects.
  assert (Hstep : records_are_objects (AtlassianAddon._db (fst (AtlassianAddon.installed key_text this req))) /\
                  records_are_objects (AtlassianAddon._db (fst (AtlassianAddon.uninstalled key_text this req)))).
  { destruct (truthy (prop (req_body req) "clientKey")) eqn:Htruthy.
    - destruct (req_body req) as [clientData|] eqn:Hbody; [| discriminate Htruthy].
      destruct (prop (Some clientData) "clientKey") as [clientKey|] eqn:Hkey;
        [| discriminate Htruthy].
      destruct (key_text clientKey) as [k0|] eqn:Htext.
      + rewrite (installed_accepted _ _ _ _ _ Hbody Hkey Htruthy Htext).
        rewrite (uninstalled_accepted _ _ _ _ _ Hbody Hkey Htruthy Htext).
        split; intros k' v; simpl.
        * destruct (decide (k0 = k')) as [-> | Hne].
          -- rewrite lookup_insert_eq. intros [= <-].
             destruct clientData as [| | | | |fields]; try discriminate Hkey. eauto.
          -- rewrite lookup_insert_ne by exact Hne. apply Hobjects.
        * intros Hlookup. apply lookup_delete_Some in Hlookup as [_ Hlookup].
          exact (Hobjects k' v Hlookup).
      + unfold AtlassianAddon.installed, AtlassianAddon.uninstalled.
        rewrite !(with_clientKey_found _ _ _ _ _ Hbody Hkey Htruthy), Htext.
        split; exact Hobjects.
    - unfold AtlassianAddon.installed, AtlassianAddon.uninstalled.
      rewrite !(with_clientKey_rejected _ _ _ Htruthy). split; exact Hobjects. }
  destruct Hstep as [Hi Hu]. split; [exact Hi |]. split; [exact Hu |].
  intros clientKey k. unfold AtlassianAddon.getClientData.
  destruct (Keyv.get (AtlassianAddon._db this) clientKey) as [d|] eqn:Hget; [| eauto].
  destruct (Hobjects clientKey d Hget) as [fields ->]. simpl.
  destruct (bool_decide _); eauto.
Qed.
End TenantLifecycle.

Lemma installed_then_getSharedSecret_witness :
  AtlassianAddon.getSharedSecret
      (fst (AtlassianAddon.installed string_key sample_addon install_T1)) "T1"
    = Returned (Some (JStr "S1")) /\
  snd (AtlassianAddon.installed string_key sample_addon install_T1)
    = ([Respond 200 {| code := 200; msg := "Installation completed successfully" |}],
       Returned tt).
Proof.
  apply (installed_then_getSharedSecret string_key sample_addon install_T1
           (JObj [("clientKey", JStr "T1"); ("sharedSecret", JStr "S1");
                  ("baseUrl", JStr "https://t1.atlassian.net")])
           (JStr "T1") "T1"); reflexivity.
Defined.

Lemma lifecycle_keeps_other_tenants_witness :
  let this := fst (AtlassianAddon.installed string_key sample_addon reinstall_T1) in
  AtlassianAddon.getClientData
      (fst (AtlassianAddon.installed string_key this
              {| req_body := Some (JObj [("clientKey", JStr "T2")]) |})) "T1" "sharedSecret"
    = AtlassianAddon.getClientData this "T1" "sharedSecret" /\
  AtlassianAddon.getClientData
      (fst (AtlassianAddon.uninstalled string_key this
              {| req_body := Some (JObj [("clientKey", JStr "T2")]) |})) "T1" "sharedSecret"
    = AtlassianAddon.getClientData this "T1" "sharedSecret".
Proof.
  intros this.
  apply (lifecycle_keeps_other_tenants string_key this
           {| req_body := Some (JObj [("clientKey", JStr "T2")]) |} "T1" "sharedSecret").
  intros clientKey Hkey. injection Hkey as <-. discriminate.
Defined.

Lemma reinstall_overwrites_witness :
  fst (AtlassianAddon.installed string_key
         (fst (AtlassianAddon.installed string_key sample_addon install_T1)) reinstall_T1)
    = fst (AtlassianAddon.installed string_key sample_addon reinstall_T1).
Proof.
  apply (reinstall_overwrites string_key sample_addon install_T1 reinstall_T1
           (JObj [("clientKey", JStr "T1"); ("sharedSecret", JStr "S1");
                  ("baseUrl", JStr "https://t1.atlassian.net")])
           (JStr "T1")
           (JObj [("clientKey", JStr "T1"); ("sharedSecret", JStr "S2")])
           (JStr "T1") "T1"); reflexivity.
Defined.

Lemma install_then_uninstall_witness :
  fst (AtlassianAddon.uninstalled string_key
         (fst (AtlassianAddon.installed string_key sample_addon install_T1)) uninstall_T1)
    = sample_addon.
Proof.
  apply (install_then_uninstall string_key sample_addon install_T1 uninstall_T1
           (JObj [("clientKey", JStr "T1"); ("sharedSecret", JStr "S1");
                  ("baseUrl", JStr "https://t1.atlassian.net")])
           (JStr "T1")
           (JObj [("clientKey", JStr "T1")])
           (JStr "T1") "T1"); reflexivity.
Defined.

Lemma lifecycle_falsy_key_rejected_witness :
  AtlassianAddon.installed string_key sample_addon empty_key_request
    = (sample_addon,
       ([Respond 500 {| code := 500;
                        msg := "Received malformed installation payload from Jira" |}],
        Returned tt)) /\
  AtlassianAddon.uninstalled string_key sample_addon empty_key_request
    = (sample_addon,
       ([Respond 500 {| code := 500;
                        msg := "Received malformed installation payload from Jira" |}],
        Returned tt)).
Proof.
  apply (lifecycle_falsy_key_rejected string_key sample_addon empty_key_request).
  reflexivity.
Defined.

Lemma records_stay_objects_witness :
  records_are_objects
    (AtlassianAddon._db (fst (AtlassianAddon.installed string_key sample_addon install_T1))) /\
  records_are_objects
    (AtlassianAddon._db (fst (AtlassianAddon.uninstalled string_key sample_addon install_T1))) /\
  (forall clientKey k : string,
      exists v : any, AtlassianAddon.getClientData sample_addon clientKey k = Returned v).
Proof.
  apply (records_stay_objects string_key sample_addon install_T1).
  intros k v Hlookup.
  change (Keyv.entries (AtlassianAddon._db sample_addon)) with (∅ : gmap string json)
    in Hlookup.
  rewrite lookup_empty in Hlookup. discriminate Hlookup.
Defined.

Lemma getSharedSecret_after_uninstalled_witness :
  AtlassianAddon.getSharedSecret
      (fst (AtlassianAddon.uninstalled string_key
              (fst (AtlassianAddon.installed string_key sample_addon install_T1))
              uninstall_T1)) "T1"
    = Returned undefined.
Proof.
  apply (getSharedSecret_after_uninstalled string_key
           (fst (AtlassianAddon.installed string_key sample_addon install_T1))
           uninstall_T1 "T1"); [reflexivity | discriminate | reflexivity].
Defined.

(** ** More on the webhook route *)

Lemma webhook_route_handled_witness :
  webhook_route [webhook_for "jira:issue_updated" succeeds;
                 webhook_for jira_issue_created declines]
      (post_webhook_request jira_payload)
    = ([Call 1 jira_payload;
        Respond 200 {| code := 200; msg := "Event handled successfully" |}],
       Returned tt).
Proof.
  apply (webhook_route_handled
           [webhook_for "jira:issue_updated" succeeds;
            webhook_for jira_issue_created declines]
           (post_webhook_request jira_payload) jira_payload 1%nat
           (webhook_for jira_issue_created declines) false).
  - discriminate.
  - reflexivity.
  - reflexivity.
  - reflexivity.
  - intros [|[|j]] y Hj Hy; [injection Hy as <-; reflexivity | lia | lia].
  - reflexivity.
Defined.

Lemma handler_exception_reported_witness :
  webhook_route [webhook_for jira_issue_created throws_error]
      (post_webhook_request jira_payload)
    = ([Call 0 jira_payload;
        Log ("Unable to handle a webhook event that  was received from Jira: "
             +:+ "Error: boom");
        Respond 500 {| code := 500;
                       msg := "Exception thrown during handling of webhook event" |}],
       Returned tt).
Proof.
  apply (handler_exception_reported
           [webhook_for jira_issue_created throws_error]
           (post_webhook_request jira_payload) jira_payload 0%nat
           (webhook_for jira_issue_created throws_error)
           (ThrownError "Error" "boom") "Error: boom").
  - discriminate.
  - reflexivity.
  - reflexivity.
  - reflexivity.
  - intros j y Hj. lia.
  - reflexivity.
  - reflexivity.
Defined.

(** X10.  Whatever the batch and the request, one run of the route calls at most
    one handler and sends at most one response, and the [code] in the body of
    a response is its HTTP status. *)
Theorem webhook_route_answers_at_most_once (webhooks : list WebhookConfiguration)
    (req : WebhookRequest) :
  (length (calls (trace (webhook_route webhooks req))) <= 1)%nat /\
  (length (responses (trace (webhook_route webhooks req))) <= 1)%nat /\
  Forall (fun r => code (snd r) = fst r) (responses (trace (webhook_route webhooks req))).
Proof.
  split; [apply webhook_route_calls_at_most_one |].
  unfold webhook_route, check_event_param.
  destruct (String.eqb (params_event req) "");
    (destruct (body req) as [payload|]; [| simpl; split; [lia | constructor]]);
    (destruct (0 <=? findIndex (event_matches payload) webhooks);
       [| simpl; split; [lia | repeat constructor]]);
    unfold await_handler;
    (destruct (webhooks !! _) as [wh|]; [| simpl; split; [lia | repeat constructor]]);
    destruct (handler wh payload) as [b|[| |s|nm m]]; simpl;
    (split; [lia | repeat constructor]).
Qed.

(** X13.  The route parameter takes no part in the dispatch: a run is the
    [!event] guard followed by the run of the same payload under any other
    non-empty parameter.  A payload posted to the url of another event is
    dispatched on its own [webhookEvent]; an empty parameter is reported
    through [next] and the dispatch goes on all the same. *)
Theorem webhook_route_param_not_consulted (webhooks : list WebhookConfiguration)
    (req : WebhookRequest) (param : string) :
  param <> "" ->
  webhook_route webhooks req
    = (check_event_param req ;;
       webhook_route webhooks {| params_event := param; body := body req |}).
Proof.
  intros Hparam. unfold webhook_route at 2.
  rewrite (check_event_param_named {| params_event := param; body := body req |})
    by exact Hparam.
  unfold webhook_route. simpl.
  destruct (check_event_param req) as [t0 [[]|e0]]; [| reflexivity].
  destruct (try_catch _ _) as [t r]. reflexivity.
Qed.

Lemma webhook_route_param_not_consulted_witness :
  webhook_route [webhook_for jira_issue_created succeeds]
      {| params_event := ""; body := Some jira_payload |}
    = (check_event_param {| params_event := ""; body := Some jira_payload |} ;;
       webhook_route [webhook_for jira_issue_created succeeds]
         {| params_event := "jira:issue_deleted"; body := Some jira_payload |}).
Proof.
  apply (webhook_route_param_not_consulted [webhook_for jira_issue_created succeeds]
           {| params_event := ""; body := Some jira_payload |} "jira:issue_deleted").
  discriminate.
Defined.

(** ** [addWebhooks] and the descriptor *)

(** X14.  [addWebhooks] lists every definition of the batch under
    [modules.webhooks] with the url [/webhook/<event>], whatever url the host
    had configured, after the modules listed before; the other module kinds
    are left as they were. *)
Theorem addWebhooks_descriptor (this : AtlassianAddon.t)
    (webhooks : list WebhookConfiguration) :
  let before :=
    default ∅ (IAtlassianDescriptor.modules (AtlassianAddon.toJson this)) in
  exists after : gmap string (list descriptor_module),
    IAtlassianDescriptor.modules
        (AtlassianAddon.toJson (AtlassianAddon.addWebhooks this webhooks))
      = Some after /\
    after !! "webhooks"
      = Some (default [] (before !! "webhooks")
              ++ ((fun wh =>
                     WebhookModule
                       (IWebhookDefinition.set_url (definition wh)
                          ("/webhook/" +:+ IWebhookDefinition.event (definition wh))))
                    <$> webhooks)) /\
    (forall name : string, name <> "webhooks" -> after !! name = before !! name).
Proof.
  intros before. eexists. split; [reflexivity |]. split.
  - rewrite lookup_insert_eq, <- list_fmap_compose.
    unfold before, AtlassianAddon.toJson.
    destruct (IAtlassianDescriptor.modules (AtlassianAddon._descriptorData this));
      reflexivity.
  - intros name Hname. rewrite lookup_insert_ne by congruence.
    unfold before, AtlassianAddon.toJson.
    destruct (IAtlassianDescriptor.modules (AtlassianAddon._descriptorData this));
      reflexivity.
Qed.

(** X15.  Registering two batches one after the other gives the descriptor that
    registering their concatenation gives, and two routes on the same path,
    the first batch's first. *)
Theorem addWebhooks_twice (this : AtlassianAddon.t)
    (first second : list WebhookConfiguration) :
  AtlassianAddon.toJson
      (AtlassianAddon.addWebhooks (AtlassianAddon.addWebhooks this first) second)
    = AtlassianAddon.toJson (AtlassianAddon.addWebhooks this (first ++ second)) /\
  AtlassianAddon.subApp
      (AtlassianAddon.addWebhooks (AtlassianAddon.addWebhooks this first) second)
    = AtlassianAddon.subApp this
        ++ [post_webhook (AtlassianAddon._addonPath this +:+ "/webhook/:event")
              [bodyParser_json; authenticationMiddleware]
              (AtlassianAddon.with_url <$> first);
            post_webhook (AtlassianAddon._addonPath this +:+ "/webhook/:event")
              [bodyParser_json; authenticationMiddleware]
              (AtlassianAddon.with_url <$> second)].
Proof.
  split.
  - unfold AtlassianAddon.toJson, AtlassianAddon.addWebhooks. simpl.
    unfold IAtlassianDescriptor.set_modules. simpl. f_equal. f_equal.
    rewrite lookup_insert_eq, insert_insert_eq, !fmap_app, app_assoc. reflexivity.
  - unfold AtlassianAddon.addWebhooks. simpl. rewrite <- app_assoc. reflexivity.
Qed.

(** X16.  [addWebhooks] appends exactly one route, on
    [<addonPath>/webhook/:event] behind the body parser and the authentication
    middleware; the batch the route closes over dispatches every request as
    the batch that was passed in; the tenant store, the meta router and the
    lifecycle paths are untouched. *)
Theorem addWebhooks_registers_dispatch (this : AtlassianAddon.t)
    (webhooks : list WebhookConfiguration) :
  exists batch : list WebhookConfiguration,
    AtlassianAddon.subApp (AtlassianAddon.addWebhooks this webhooks)
      = AtlassianAddon.subApp this
          ++ [post_webhook (AtlassianAddon._addonPath this +:+ "/webhook/:event")
                [bodyParser_json; authenticationMiddleware] batch] /\
    (forall req : WebhookRequest,
        webhook_route batch req = webhook_route webhooks req) /\
    AtlassianAddon._db (AtlassianAddon.addWebhooks this webhooks)
      = AtlassianAddon._db this /\
    AtlassianAddon._metaRouter (AtlassianAddon.addWebhooks this webhooks)
      = AtlassianAddon._metaRouter this /\
    IAtlassianDescriptor.lifecycle
        (AtlassianAddon.toJson (AtlassianAddon.addWebhooks this webhooks))
      = IAtlassianDescriptor.lifecycle (AtlassianAddon.toJson this).
Proof.
  exists (AtlassianAddon.with_url <$> webhooks).
  split; [apply addWebhooks_route |].
  split; [intros req; apply webhook_route_with_url |].
  repeat split.
Qed.

(** ** The constructor *)


(** X18.  The descriptor a constructed instance serves: the lifecycle paths are
    [/meta/installed] and [/meta/uninstalled] whatever the host put there, the
    base url is the host's followed by the add-on path, name, description and
    modules are the host's; the meta router is mounted on
    [<addonPath>/meta] after the layers the application already had, with the
    body parser and the three routes; [api] is a client exactly when a
    connection was passed. *)
Theorem new_descriptor (params : IAtlassianDescriptor.t) (subApp : Application)
    (addonPath : string) (dbConnectionString : option string) (maxTokenAge : option Z)
    (jiraConnection : option IJiraConnection)
    (store : string -> string -> gmap string json) :
  let this := fst (AtlassianAddon.new params subApp addonPath dbConnectionString
                     maxTokenAge jiraConnection store) in
  IAtlassianDescriptor.lifecycle (AtlassianAddon.toJson this)
    = Some {| installed_path := "/meta/installed";
              uninstalled_path := "/meta/uninstalled" |} /\
  AtlassianAddon.baseUrl this = IAtlassianDescriptor.baseUrl params +:+ addonPath /\
  AtlassianAddon.name this = IAtlassianDescriptor.name params /\
  AtlassianAddon.description this = IAtlassianDescriptor.description params /\
  IAtlassianDescriptor.modules (AtlassianAddon.toJson this)
    = IAtlassianDescriptor.modules params /\
  AtlassianAddon.app this = subApp ++ [use_metaRouter (addonPath +:+ "/meta")] /\
  AtlassianAddon._metaRouter this
    = Some {| uses := [bodyParser_json];
              routes := [("post", "/installed", installed_callback);
                         ("post", "/uninstalled", uninstalled_callback);
                         ("get", "/descriptor", descriptor_endpoint)] |} /\
  (is_Some (AtlassianAddon.api this) <-> is_Some jiraConnection).
Proof.
  intros this. unfold this, AtlassianAddon.new.
  destruct (IAtlassianDescriptor.scopes params) as [given|] eqn:Hscopes; simpl;
    unfold AtlassianAddon.baseUrl, AtlassianAddon.name, AtlassianAddon.description,
      AtlassianAddon.api, AtlassianAddon.toJson; simpl;
    (repeat split;
     destruct jiraConnection; simpl; first [by eauto | intros [? ?]; discriminate]).
Qed.

(** ** [installApp] and [removeApp] *)

Section RegistrationProperties.
Variable urljoin : string -> string -> string.
Variable base64 : string -> string.
Variable axios : AxiosRequestConfig -> promise AxiosResponse.

Lemma submitted_resolves (request : AxiosRequestConfig) (failed threw : string) :
  (forall e : thrown,
      axios request = Thrown e -> e <> ThrownUndefined /\ e <> ThrownNull) ->
  exists b : bool,
    snd (submitted axios request failed threw) = Returned b /\
    (b = true <->
     exists res : AxiosResponse,
       axios request = Returned res /\ 200 < status res < 300) /\
    length (fst (submitted axios request failed threw)) = (if b then 0 else 1)%nat.
Proof.
  intros Hreason. unfold submitted.
  destruct (axios request) as [res|e] eqn:Haxios.
  - unfold status_accepted.
    destruct (Z.ltb_spec 200 (status res)) as [Hlow|Hlow];
      [destruct (Z.ltb_spec (status res) 300) as [Hhigh|Hhigh] |]; simpl.
    + exists true. repeat split. exists res. auto.
    + exists false. repeat split; [discriminate |].
      intros (res' & [= <-] & _ & Hlt). lia.
    + exists false. repeat split; [discriminate |].
      intros (res' & [= <-] & Hlt & _). lia.
  - destruct (Hreason e eq_refl) as [Hu Hn].
    exists false.
    destruct e as [| |s|nm m]; try contradiction; simpl;
      (repeat split; [discriminate | intros (res' & Hres & _); discriminate Hres]).
Qed.

(** X19.  [installApp] resolves to a boolean, [true] exactly when the server
    answered with a status strictly between 200 and 300 (a plain 200 gives
    [false]), and logs one line exactly when the boolean is [false]; a
    rejection of axios is turned into [false] as long as its reason has a
    [toString]. *)
Theorem installApp_resolves (server : IJiraConnection)
    (upmToken descriptorUrl name : string) :
  (forall e : thrown,
      axios (install_request urljoin base64 server upmToken descriptorUrl name) = Thrown e ->
      e <> ThrownUndefined /\ e <> ThrownNull) ->
  exists b : bool,
    snd (installApp urljoin base64 axios server upmToken descriptorUrl name) = Returned b /\
    (b = true <->
     exists res : AxiosResponse,
       axios (install_request urljoin base64 server upmToken descriptorUrl name)
         = Returned res /\
       200 < status res < 300) /\
    length (fst (installApp urljoin base64 axios server upmToken descriptorUrl name))
      = (if b then 0 else 1)%nat.
Proof. intros Hreason. apply submitted_resolves, Hreason. Qed.

(** X20.  [removeApp] sends a DELETE to the url of the plugin api joined with
    [/<addonKey>-key] and resolves like [installApp]: [true] exactly for a
    status strictly between 200 and 300, [false] with one log line
    otherwise, a rejection included. *)
Theorem removeApp_resolves (server : IJiraConnection) (addonKey : string) :
  (forall e : thrown,
      axios (remove_request urljoin base64 server addonKey) = Thrown e ->
      e <> ThrownUndefined /\ e <> ThrownNull) ->
  method (remove_request urljoin base64 server addonKey) = "delete" /\
  request_url (remove_request urljoin base64 server addonKey)
    = urljoin (urljoin (host server) "/rest/plugins/1.0") ("/" +:+ addonKey +:+ "-key") /\
  exists b : bool,
    snd (removeApp urljoin base64 axios server addonKey) = Returned b /\
    (b = true <->
     exists res : AxiosResponse,
       axios (remove_request urljoin base64 server addonKey) = Returned res /\
       200 < status res < 300) /\
    length (fst (removeApp urljoin base64 axios server addonKey))
      = (if b then 0 else 1)%nat.
Proof.
  intros Hreason. split; [reflexivity |]. split.
  - unfold remove_request, getAxiosConfig. simpl. reflexivity.
  - apply submitted_resolves, Hreason.
Qed.
End RegistrationProperties.

Lemma installApp_resolves_witness :
  exists b : bool,
    snd (installApp sample_urljoin sample_base64 (answers 200 "OK") sample_server
           "-1234567890" "https://example.com/jira/addon/meta/descriptor" "Sample")
      = Returned b /\
    (b = true <->
     exists res : AxiosResponse,
       answers 200 "OK"
         (install_request sample_urljoin sample_base64 sample_server
            "-1234567890" "https://example.com/jira/addon/meta/descriptor" "Sample")
         = Returned res /\
       200 < status res < 300) /\
    length (fst (installApp sample_urljoin sample_base64 (answers 200 "OK") sample_server
                   "-1234567890" "https://example.com/jira/addon/meta/descriptor"
                   "Sample"))
      = (if b then 0 else 1)%nat.
Proof.
  apply (installApp_resolves sample_urljoin sample_base64 (answers 200 "OK")
           sample_server "-1234567890"
           "https://example.com/jira/addon/meta/descriptor" "Sample").
  intros e He. discriminate He.
Defined.

Lemma removeApp_resolves_witness :
  method (remove_request sample_urljoin sample_base64 sample_server "sample-addon")
    = "delete" /\
  request_url (remove_request sample_urljoin sample_base64 sample_server "sample-addon")
    = sample_urljoin (sample_urljoin (host sample_server) "/rest/plugins/1.0")
        ("/" +:+ "sample-addon" +:+ "-key") /\
  exists b : bool,
    snd (removeApp sample_urljoin sample_base64 answers_401 sample_server "sample-addon")
      = Returned b /\
    (b = true <->
     exists res : AxiosResponse,
       answers_401 (remove_request sample_urljoin sample_base64 sample_server "sample-addon")
         = Returned res /\
       200 < status res < 300) /\
    length (fst (removeApp sample_urljoin sample_base64 answers_401 sample_server
                   "sample-addon"))
      = (if b then 0 else 1)%nat.
Proof.
  apply (removeApp_resolves sample_urljoin sample_base64 answers_401 sample_server
           "sample-addon").
  intros e He. injection He as <-. split; discriminate.
Defined.

(** ** [extractHost] *)

Lemma indexOf_from_absent (c : Ascii.ascii) (s : string) :
  forall i j : Z,
    0 <= i -> ViewParameters.indexOf_from c s i = -1 ->
    ViewParameters.indexOf_from c s j = -1.
Proof.
  induction s as [|a s IH]; intros i j Hi Habsent; simpl in *.
  - reflexivity.
  - destruct (Ascii.eqb a c); [lia | apply (IH (i + 1) (j + 1)); [lia | exact Habsent]].
Qed.

Lemma indexOf_from_split (c : Ascii.ascii) (s : string) :
  forall i : Z,
    0 <= i ->
    ViewParameters.indexOf_from c s i = -1 \/
    exists (p rest : string),
      s = p +:+ String c rest /\
      ViewParameters.indexOf_from c p 0 = -1 /\
      ViewParameters.indexOf_from c s i = i + Z.of_nat (String.length p).
Proof.
  induction s as [|a s IH]; intros i Hi; simpl.
  - left. reflexivity.
  - destruct (Ascii.eqb_spec a c) as [-> | Hne].
    + right. exists "", s. simpl. repeat split. lia.
    + destruct (IH (i + 1)) as [Habsent | (p & rest & -> & Hp & Hfound)]; [lia | |].
      * left. exact Habsent.
      * right. exists (String a p), rest. simpl.
        destruct (Ascii.eqb_spec a c); [contradiction |].
        repeat split.
        -- apply (indexOf_from_absent c p 0 1); [lia | exact Hp].
        -- rewrite Hfound. lia.
Qed.

Lemma indexOf_from_cut (c : Ascii.ascii) (p rest : string) :
  forall i : Z,
    ViewParameters.indexOf_from c p 0 = -1 ->
    ViewParameters.indexOf_from c (p +:+ String c rest) i = i + Z.of_nat (String.length p).
Proof.
  induction p as [|a p IH]; intros i Hp; simpl in *.
  - rewrite Ascii.eqb_refl. lia.
  - destruct (Ascii.eqb a c); [lia |].
    rewrite IH by (apply (indexOf_from_absent c p 1 0); [lia | exact Hp]). lia.
Qed.

Lemma substring_prefix (p rest : string) :
  String.substring 0 (String.length p) (p +:+ rest) = p.
Proof.
  induction p as [|a p IH].
  - destruct rest; reflexivity.
  - change (String a (String.substring 0 (String.length p) (p +:+ rest)) = String a p).
    rewrite IH. reflexivity.
Qed.

Lemma append_empty (s : string) : s +:+ "" = s.
Proof.
  induction s as [|a s IH]; [reflexivity |].
  change (String a (s +:+ "") = String a s). rewrite IH. reflexivity.
Qed.

Lemma host_of_before_slash (p rest : string) :
  ViewParameters.indexOf "/" p = -1 ->
  ViewParameters.host_of (p +:+ String "/" rest) = p.
Proof.
  intros Hp. unfold ViewParameters.host_of, ViewParameters.indexOf in *.
  rewrite (indexOf_from_cut "/" p rest 0 Hp).
  replace (-1 <? 0 + Z.of_nat (String.length p)) with true
    by (symmetry; apply Z.ltb_lt; lia).
  rewrite Z.add_0_l, Nat2Z.id. apply substring_prefix.
Qed.

(** X21.  [extractHost] cuts a string before its first slash: with no slash in
    [p], the host of [p/rest] is [p].  The host of a base url that starts with
    its scheme, [https://...], is therefore [https:]. *)
Theorem host_of_cut (p rest : string) :
  ViewParameters.indexOf "/" p = -1 ->
  ViewParameters.host_of (p +:+ String "/" rest) = p.
Proof. apply host_of_before_slash. Qed.

Lemma host_of_cut_witness :
  ViewParameters.host_of "https://t1.atlassian.net/wiki" = "https:".
Proof.
  apply (host_of_cut "https:" "/t1.atlassian.net/wiki"). reflexivity.
Defined.

(** X22.  Whatever the string, its host is a prefix of it, contains no slash,
    and is its own host; a string without a slash is its own host. *)
Theorem host_of_prefix (uri : string) :
  (exists rest : string, uri = ViewParameters.host_of uri +:+ rest) /\
  ViewParameters.indexOf "/" (ViewParameters.host_of uri) = -1 /\
  ViewParameters.host_of (ViewParameters.host_of uri) = ViewParameters.host_of uri /\
  (ViewParameters.indexOf "/" uri = -1 -> ViewParameters.host_of uri = uri).
Proof.
  assert (Hself : forall s : string,
             ViewParameters.indexOf "/" s = -1 -> ViewParameters.host_of s = s).
  { intros s Hs. unfold ViewParameters.host_of. rewrite Hs. reflexivity. }
  destruct (indexOf_from_split "/" uri 0) as [Habsent | (p & rest & -> & Hp & _)];
    [lia | |].
  - rewrite (Hself uri Habsent). split; [| split; [| split]].
    + exists "". symmetry. apply append_empty.
    + exact Habsent.
    + apply Hself, Habsent.
    + intros _. reflexivity.
  - rewrite (host_of_before_slash p rest Hp). split; [| split; [| split]].
    + exists (String "/" rest). reflexivity.
    + exact Hp.
    + apply Hself, Hp.
    + intros Habsent. unfold ViewParameters.indexOf in Habsent.
      rewrite (indexOf_from_cut "/" p rest 0 Hp) in Habsent. lia.
Qed.

(** ** The view-parameters middleware *)

Section MiddlewareProperties.
Variable plus : any -> any -> json.
Variable env : any.

Lemma lookup_set_if_truthy_ne (k k' : string) (v : any) (params : ViewParameters.locals) :
  k <> k' -> ViewParameters.set_if_truthy k v params !! k' = params !! k'.
Proof.
  intros Hne. unfold ViewParameters.set_if_truthy.
  destruct (truthy v); [by apply lookup_insert_ne | reflexivity].
Qed.

(** The locals of a run that goes on: the derived parameters over the
    request's, over the previous locals. *)
Lemma middleware_continued (verified : option (list (string * json)))
    (req : ViewParameters.Request) (res_locals : ViewParameters.locals)
    (hostUrl : any) :
  ViewParameters.extractHost
      (default undefined (ViewParameters.request_params plus verified req !! "hostBaseUrl"))
    = Returned hostUrl ->
  exists (log : list string) (after : ViewParameters.locals),
    ViewParameters.middleware plus env verified req res_locals
      = ViewParameters.Continued log after /\
    after !! "hostUrl" = Some hostUrl /\
    (forall k : string,
        k <> "hostUrl" -> k <> "hostStylesheetUrl" -> k <> "hostScriptUrl" ->
        after !! k
          = (ViewParameters.request_params plus verified req ∪ res_locals) !! k).
Proof.
  intros Hhost. unfold ViewParameters.middleware. rewrite Hhost.
  eexists _, _. split; [reflexivity |]. split.
  - apply lookup_union_Some_l.
    rewrite !(lookup_insert_ne _ _ "hostUrl") by discriminate. apply lookup_insert_eq.
  - intros k H1 H2 H3. rewrite !lookup_union.
    rewrite !lookup_insert_ne by congruence. reflexivity.
Qed.

Lemma request_params_verified (verified : list (string * json))
    (req : ViewParameters.Request) (k : string) :
  k = "clientKey" \/ k = "token" \/ k = "userAccountId" \/ k = "hostBaseUrl" ->
  ViewParameters.request_params plus (Some verified) req !! k = Some (assoc k verified).
Proof.
  unfold ViewParameters.request_params. cbv zeta.
  intros [-> | [-> | [-> | ->]]];
    rewrite (lookup_set_if_truthy_ne "context") by discriminate;
    repeat (first [rewrite lookup_insert_eq; reflexivity
                  | rewrite lookup_insert_ne by discriminate]).
Qed.

Lemma request_params_unverified (req : ViewParameters.Request) (k : string) :
  k = "clientKey" \/ k = "token" ->
  ViewParameters.request_params plus None req !! k = Some (Some (JStr "")).
Proof.
  unfold ViewParameters.request_params. cbv zeta.
  intros [-> | ->];
    rewrite lookup_insert_ne by discriminate;
    rewrite (lookup_set_if_truthy_ne "userId"), (lookup_set_if_truthy_ne "locale"),
      (lookup_set_if_truthy_ne "timezone") by discriminate;
    repeat (first [rewrite lookup_insert_eq; reflexivity
                  | rewrite lookup_insert_ne by discriminate]).
Qed.


(** X24.  When the verified parameters carry no [hostBaseUrl], [extractHost]
    throws: the middleware raises a [TypeError], sets no locals and does not
    call [next]. *)
Theorem verified_without_host_raises (verified : list (string * json))
    (req : ViewParameters.Request) (res_locals : ViewParameters.locals) :
  assoc "hostBaseUrl" verified = None ->
  exists (log : list string) (message : string),
    ViewParameters.middleware plus env (Some verified) req res_locals
      = ViewParameters.Raised log (TypeError message).
Proof.
  intros Hhost. unfold ViewParameters.middleware.
  rewrite request_params_verified by auto. rewrite Hhost. simpl. eauto.
Qed.

(** X25.  Without verified parameters the locals carry no identity: whenever the
    middleware goes on, [clientKey] and [token] are the empty string, whatever
    the query string, the body and the previous locals hold. *)
Theorem unauthenticated_has_no_identity (req : ViewParameters.Request)
    (res_locals : ViewParameters.locals) (log : list string)
    (after : ViewParameters.locals) :
  ViewParameters.middleware plus env None req res_locals
    = ViewParameters.Continued log after ->
  after !! "clientKey" = Some (Some (JStr "")) /\
  after !! "token" = Some (Some (JStr "")).
Proof.
  intros Hrun.
  destruct (ViewParameters.extractHost
              (default undefined
                 (ViewParameters.request_params plus None req !! "hostBaseUrl")))
    as [hostUrl|e] eqn:Hhost.
  - destruct (middleware_continued None req res_locals hostUrl Hhost)
      as (log' & after' & Hrun' & _ & Hother).
    rewrite Hrun in Hrun'. injection Hrun' as _ <-.
    split; rewrite Hother by discriminate;
      apply lookup_union_Some_l, request_params_unverified; auto.
  - unfold ViewParameters.middleware in Hrun. rewrite Hhost in Hrun. discriminate Hrun.
Qed.

(** X26.  A request that names no host ([xdm_e] absent from the query string
    and from the body) and has no verified parameters goes on with an empty
    [hostBaseUrl] and an empty [hostUrl]. *)
Theorem unauthenticated_without_host (req : ViewParameters.Request)
    (res_locals : ViewParameters.locals) :
  ViewParameters.getParam req "xdm_e" = None ->
  exists (log : list string) (after : ViewParameters.locals),
    ViewParameters.middleware plus env None req res_locals
      = ViewParameters.Continued log after /\
    after !! "hostBaseUrl" = Some (Some (JStr "")) /\
    after !! "hostUrl" = Some (Some (JStr "")).
Proof.
  intros Hxdm.
  assert (Hbase : ViewParameters.request_params plus None req !! "hostBaseUrl"
                  = Some (Some (JStr ""))).
  { unfold ViewParameters.request_params, ViewParameters.getBaseUrlFromQueryParameters.
    cbv zeta. rewrite Hxdm. apply lookup_insert_eq. }
  destruct (middleware_continued None req res_locals (Some (JStr "")))
    as (log & after & Hrun & HhostUrl & Hother).
  { rewrite Hbase. reflexivity. }
  exists log, after. split; [exact Hrun |]. split; [| exact HhostUrl].
  rewrite Hother by discriminate. apply lookup_union_Some_l, Hbase.
Qed.

(** X27.  The middleware writes fifteen names at most; every other member of
    the previous locals is still there afterwards. *)
Theorem middleware_keeps_other_locals (verified : option (list (string * json)))
    (req : ViewParameters.Request) (res_locals : ViewParameters.locals)
    (log : list string) (after : ViewParameters.locals) (k : string) :
  ViewParameters.middleware plus env verified req res_locals
    = ViewParameters.Continued log after ->
  k ∉ ["title"; "addonKey"; "license"; "localBaseUrl"; "clientKey"; "token";
       "timezone"; "locale"; "userId"; "hostBaseUrl"; "userAccountId"; "context";
       "hostUrl"; "hostStylesheetUrl"; "hostScriptUrl"] ->
  after !! k = res_locals !! k.
Proof.
  intros Hrun Hk.
  assert (Hne : forall name : string,
             name ∈ ["title"; "addonKey"; "license"; "localBaseUrl"; "clientKey"; "token";
                     "timezone"; "locale"; "userId"; "hostBaseUrl"; "userAccountId";
                     "context"; "hostUrl"; "hostStylesheetUrl"; "hostScriptUrl"] ->
             name <> k).
  { intros name Hin ->. contradiction. }
  destruct (ViewParameters.extractHost
              (default undefined
                 (ViewParameters.request_params plus verified req !! "hostBaseUrl")))
    as [hostUrl|e] eqn:Hhost.
  - destruct (middleware_continued verified req res_locals hostUrl Hhost)
      as (log' & after' & Hrun' & _ & Hother).
    rewrite Hrun in Hrun'. injection Hrun' as _ <-.
    rewrite Hother by (intros ->; apply Hk; set_solver).
    apply lookup_union_r.
    unfold ViewParameters.request_params. cbv zeta.
    destruct verified as [verified|];
      repeat (first [ rewrite lookup_insert_ne by (apply Hne; set_solver)
                    | rewrite lookup_set_if_truthy_ne by (apply Hne; set_solver) ]);
      apply lookup_empty.
  - unfold ViewParameters.middleware in Hrun. rewrite Hhost in Hrun. discriminate Hrun.
Qed.
End MiddlewareProperties.


Lemma verified_without_host_raises_witness :
  exists (log : list string) (message : string),
    ViewParameters.middleware sample_plus production
        (Some [("clientKey", JStr "T1")]) forged_query ∅
      = ViewParameters.Raised log (TypeError message).
Proof.
  apply (verified_without_host_raises sample_plus production
           [("clientKey", JStr "T1")] forged_query ∅).
  reflexivity.
Defined.

Lemma unauthenticated_has_no_identity_witness :
  let run := ViewParameters.middleware sample_plus production None forged_query ∅ in
  ViewParameters.locals_of run !! "clientKey" = Some (Some (JStr "")) /\
  ViewParameters.locals_of run !! "token" = Some (Some (JStr "")).
Proof.
  intros run.
  apply (unauthenticated_has_no_identity sample_plus production forged_query ∅
           (ViewParameters.log_of run) (ViewParameters.locals_of run)).
  reflexivity.
Defined.

Lemma unauthenticated_without_host_witness :
  exists (log : list string) (after : ViewParameters.locals),
    ViewParameters.middleware sample_plus production None forged_query ∅
      = ViewParameters.Continued log after /\
    after !! "hostBaseUrl" = Some (Some (JStr "")) /\
    after !! "hostUrl" = Some (Some (JStr "")).
Proof.
  apply (unauthenticated_without_host sample_plus production forged_query ∅).
  reflexivity.
Defined.

Lemma middleware_keeps_other_locals_witness :
  let before : ViewParameters.locals := {[ "user" := Some (JStr "alice") ]} in
  let run := ViewParameters.middleware sample_plus production None forged_query before in
  ViewParameters.locals_of run !! "user" = before !! "user".
Proof.
  intros before run.
  apply (middleware_keeps_other_locals sample_plus production None forged_query before
           (ViewParameters.log_of run) (ViewParameters.locals_of run) "user").
  - reflexivity.
  - apply (bool_decide_unpack _). vm_compute. exact I.
Defined.
